(** * Mock Payment Service: a shallow embedding and its properties

    The development models the request handlers of the mock payment
    service ([processPayment], [getPayment], [refundPayment] and
    [resetTransactions] of class [MockPaymentService]) as pure functions over
    an explicit transaction store, and proves the properties the
    specification states about them.

    Conventions of the embedding:
    - a JSON value received in a request body is a [jsval]; an object is
      the list of its properties, each name once; a missing property reads
      as [JUndefined], as in JavaScript; the body of a request that carries
      none is [JUndefined];
    - a handler that throws is answered by the error-handling middleware,
      and what it had assigned to a stored transaction before stays;
    - numbers are the finite doubles a JSON document can carry, seen as
      rationals ([Q]); only their being zero and their identity matter here;
    - strings are Rocq strings holding the UTF-8 encoding of the text;
    - the module-level [Map] named [transactions] is a [gmap string transaction]
      threaded through every handler;
    - the calls to [Math.random], [uuidv4] and [new Date().toISOString]
      are inputs of the handler, gathered in the record [env];
    - a handler returns the response it sends together with the new store;
    - the middleware that delays every request only postpones the handler
      and is left out. *)

From Stdlib Require Import Ascii String QArith.
From stdpp Require Import gmap strings list fin_maps.

Local Open Scope string_scope.

(** ** JavaScript values *)

#[warnings="-register-all"]
Inductive jsval : Type :=
| JUndefined
| JNull
| JBool (b : bool)
| JNum (q : Q)
| JStr (s : string)
| JArr (items : list jsval)
| JObj (fields : list (string * jsval)).

(** [ToBoolean]: what [!v] and [v || w] test. *)
Definition truthy (v : jsval) : bool :=
  match v with
  | JUndefined | JNull => false
  | JBool b => b
  | JNum q => negb (Qnum q =? 0)%Z
  | JStr EmptyString => false
  | JStr (String _ _) => true
  | JArr _ | JObj _ => true
  end.

(** [a || b] on values. *)
Definition js_or (a b : jsval) : jsval := if truthy a then a else b.

Fixpoint assoc (k : string) (fields : list (string * jsval)) : jsval :=
  match fields with
  | [] => JUndefined
  | (k', v) :: rest => if String.eqb k k' then v else assoc k rest
  end.

(** Reading the own property [k] of a value, for the property names the
    handlers read ([paymentMethod], [amount], [currency], [cardDetails],
    [billingInfo], [metadata], [number], [reason]): none of them is defined on
    a primitive, a string or an array, so only an object can hold one. On
    [null] and [undefined] the handlers read a property only behind
    [!cardDetails ||] or [?.], which give [undefined]. *)
Definition prop (k : string) (v : jsval) : jsval :=
  match v with
  | JObj fields => assoc k fields
  | _ => JUndefined
  end.

(** Reading a property of [v] throws: [v] is [undefined] or [null]. Of a
    request body this is the case when the request carries none. *)
Definition no_body (v : jsval) : bool :=
  match v with
  | JUndefined | JNull => true
  | _ => false
  end.

(** [v === s] for a string [s]. *)
Definition strict_eq_str (v : jsval) (s : string) : bool :=
  match v with
  | JStr t => String.eqb t s
  | _ => false
  end.

(** [list.includes(v)] for a list of strings. *)
Definition includes (l : list string) (v : jsval) : bool :=
  existsb (strict_eq_str v) l.

(** ** Whitespace stripping: [s.replace(/\s+/g, '')]

    The class [\s] of JavaScript, on the UTF-8 encoding: TAB, LF, VT, FF, CR,
    SPACE; U+00A0; U+1680; U+2000..U+200A, U+2028, U+2029, U+202F; U+205F;
    U+3000; U+FEFF. *)

Definition ws1 (a : ascii) : bool :=
  let n := N_of_ascii a in
  ((9 <=? n) && (n <=? 13) || (n =? 32))%N.

Definition ws2 (a b : ascii) : bool :=
  ((N_of_ascii a =? 194) && (N_of_ascii b =? 160))%N.

Definition ws3 (a b c : ascii) : bool :=
  let x := N_of_ascii a in
  let y := N_of_ascii b in
  let z := N_of_ascii c in
  ((x =? 225) && (y =? 154) && (z =? 128)
   || (x =? 226) && (y =? 128)
      && ((128 <=? z) && (z <=? 138) || (z =? 168) || (z =? 169) || (z =? 175))
   || (x =? 226) && (y =? 129) && (z =? 159)
   || (x =? 227) && (y =? 128) && (z =? 128)
   || (x =? 239) && (y =? 187) && (z =? 191))%N.

Fixpoint strip_whitespace (s : string) : string :=
  match s with
  | EmptyString => EmptyString
  | String a s1 =>
    if ws1 a then strip_whitespace s1
    else
      match s1 with
      | EmptyString => String a EmptyString
      | String b s2 =>
        if ws2 a b then strip_whitespace s2
        else
          match s2 with
          | EmptyString => String a (strip_whitespace s1)
          | String c s3 =>
            if ws3 a b c then strip_whitespace s3
            else String a (strip_whitespace s1)
          end
      end
  end.

(** ** Configuration *)

Record test_cards : Type := {
  success : string;
  decline : string;
  error : string;
  cvvError : string;
  expiredCard : string;
  insufficientFunds : string;
  invalidCard : string
}.

Record config : Type := {
  port : N;
  delay_min : N;
  delay_max : N;
  errorRate : Q;
  declineRate : Q;
  availablePaymentMethods : list string;
  testCards : test_cards
}.

Definition DEFAULT_TEST_CARDS : test_cards := {|
  success := "4111111111111111";
  decline := "4000000000000002";
  error := "4000000000000069";
  cvvError := "4000000000000127";
  expiredCard := "4000000000000069";
  insufficientFunds := "4000000000009995";
  invalidCard := "1234567890123456"
|}.

Definition DEFAULT_CONFIG : config := {|
  port := 3030;
  delay_min := 200;
  delay_max := 1000;
  errorRate := 5 # 100;
  declineRate := 1 # 10;
  availablePaymentMethods := ["credit_card"; "paypal"; "apple_pay"; "google_pay"];
  testCards := DEFAULT_TEST_CARDS
|}.

(** The configuration with the two probabilities overridden, as
    [new MockPaymentService({ errorRate, declineRate })] builds it. *)
Definition with_rates (err dec : Q) (cfg : config) : config := {|
  port := port cfg;
  delay_min := delay_min cfg;
  delay_max := delay_max cfg;
  errorRate := err;
  declineRate := dec;
  availablePaymentMethods := availablePaymentMethods cfg;
  testCards := testCards cfg
|}.

(** ** Transactions and the store *)

Record transaction : Type := {
  id : string;
  paymentMethod : jsval;
  amount : jsval;
  currency : jsval;
  status : string;
  createdAt : string;
  metadata : jsval;
  billingInfo : jsval;
  refundedAt : option string;
  refundAmount : option jsval;
  refundReason : option jsval
}.

(** ** What a handler draws from its environment *)

Record env : Type := {
  random_error : Q;     (* the Math.random() compared with errorRate *)
  random_decline : Q;   (* the Math.random() compared with declineRate *)
  uuid : string;        (* uuidv4() *)
  now : string          (* new Date().toISOString() *)
}.

(** [Math.random()] is at least 0 and less than 1. *)
Definition unit_interval (r : Q) : Prop := (0 <= r)%Q /\ (r < 1)%Q.

Definition valid_env (e : env) : Prop :=
  unit_interval (random_error e) /\ unit_interval (random_decline e).

(** [x < y] on numbers. *)
Definition Qltb (x y : Q) : bool := negb (Qle_bool y x).

(** ** Responses *)

Inductive payload : Type :=
| ErrorBody (code message : string)
| PaymentData (transactionId : string) (st : string) (amt cur : jsval)
              (created : string)
| DetailsData (transactionId : string) (method amt cur : jsval)
              (st created : string) (meta : jsval)
| RefundData (transactionId : string) (st : string) (refunded_amount : jsval)
             (refunded_at : string) (reason : jsval).

Record response : Type := {
  http_status : N;
  ok : bool;          (* the field [success] of the JSON body *)
  data : payload
}.

Definition fail (st : N) (code message : string) : response :=
  {| http_status := st; ok := false; data := ErrorBody code message |}.

(** The error code of a response, when it is an error. *)
Definition error_code (r : response) : option string :=
  match data r with
  | ErrorBody c _ => Some c
  | _ => None
  end.

(** What the error-handling middleware answers when a handler throws. *)
Definition server_error : response :=
  fail 500 "server_error" "An unexpected error occurred".

(** ** The handlers *)

Section Handlers.

Variable cfg : config.

Definition missing_fields_message : string :=
  "Missing required fields: paymentMethod, amount, and currency are required".

Definition invalid_method_message : string :=
  "Invalid payment method. Supported methods: "
  ++ String.concat ", " (availablePaymentMethods cfg).

(** The test-card block of [processPayment], entered when
    [paymentMethod === 'credit_card']: [Some r] when the block answers [r],
    [None] when control falls through to the decline roll. A [number] that is
    truthy and not a string has no [replace] method: the call throws and the
    error-handling middleware answers. *)
Definition test_card_outcome (cardDetails : jsval) : option response :=
  if negb (truthy cardDetails) || negb (truthy (prop "number" cardDetails)) then
    Some (fail 400 "invalid_card_details"
               "Card details are required for credit card payments")
  else
    match prop "number" cardDetails with
    | JStr number =>
      let cardNumber := strip_whitespace number in
      let cards := testCards cfg in
      if String.eqb cardNumber (decline cards) then
        Some (fail 402 "card_declined"
                   "The card was declined. Please try another payment method.")
      else if String.eqb cardNumber (error cards) then
        Some (fail 500 "processing_error"
                   "An error occurred while processing the card. Please try again.")
      else if String.eqb cardNumber (cvvError cards) then
        Some (fail 400 "invalid_cvv"
                   "The CVV code is invalid. Please check and try again.")
      else if String.eqb cardNumber (expiredCard cards) then
        Some (fail 400 "expired_card"
                   "The card has expired. Please use a different card.")
      else if String.eqb cardNumber (insufficientFunds cards) then
        Some (fail 402 "insufficient_funds"
                   "The card has insufficient funds. Please use a different card.")
      else if String.eqb cardNumber (invalidCard cards) then
        Some (fail 400 "invalid_card"
                   "The card number is invalid. Please check and try again.")
      else None
    | _ => Some server_error
    end.

(** The transaction [processPayment] builds on its success path. *)
Definition new_transaction (e : env) (body : jsval) : transaction := {|
  id := uuid e;
  paymentMethod := prop "paymentMethod" body;
  amount := prop "amount" body;
  currency := prop "currency" body;
  status := "succeeded";
  createdAt := now e;
  metadata := js_or (prop "metadata" body) (JObj []);
  billingInfo := js_or (prop "billingInfo" body) (JObj []);
  refundedAt := None;
  refundAmount := None;
  refundReason := None
|}.

(** [POST /api/payments]. The destructuring of [req.body] comes first and
    throws when there is no body. *)
Definition processPayment (e : env) (body : jsval)
    (transactions : gmap string transaction)
  : response * gmap string transaction :=
  if no_body body then (server_error, transactions) else
  let paymentMethod := prop "paymentMethod" body in
  let amount := prop "amount" body in
  let currency := prop "currency" body in
  let cardDetails := prop "cardDetails" body in
  if negb (truthy paymentMethod) || negb (truthy amount)
     || negb (truthy currency) then
    (fail 400 "invalid_request" missing_fields_message, transactions)
  else if negb (includes (availablePaymentMethods cfg) paymentMethod) then
    (fail 400 "invalid_payment_method" invalid_method_message, transactions)
  else if Qltb (random_error e) (errorRate cfg) then
    (fail 500 "processing_error"
          "An error occurred while processing the payment. Please try again.",
     transactions)
  else
    match (if strict_eq_str paymentMethod "credit_card"
           then test_card_outcome cardDetails else None) with
    | Some r => (r, transactions)
    | None =>
      if Qltb (random_decline e) (declineRate cfg)
         && negb (strict_eq_str (prop "number" cardDetails)
                                (success (testCards cfg))) then
        (fail 402 "payment_declined"
              "The payment was declined. Please try another payment method.",
         transactions)
      else
        let transaction := new_transaction e body in
        ({| http_status := 201; ok := true;
            data := PaymentData (id transaction) (status transaction)
                                amount currency (createdAt transaction) |},
         <[id transaction := transaction]> transactions)
    end.

(** [GET /api/payments/:id] *)
Definition getPayment (transactionId : string)
    (transactions : gmap string transaction)
  : response * gmap string transaction :=
  match transactions !! transactionId with
  | None => (fail 404 "transaction_not_found" "Transaction not found", transactions)
  | Some transaction =>
    ({| http_status := 200; ok := true;
        data := DetailsData (id transaction) (paymentMethod transaction)
                            (amount transaction) (currency transaction)
                            (status transaction) (createdAt transaction)
                            (metadata transaction) |},
     transactions)
  end.

(** The transaction after the four assignments of the success path of
    [refundPayment]. *)
Definition refunded (e : env) (body : jsval) (t : transaction) : transaction := {|
  id := id t;
  paymentMethod := paymentMethod t;
  amount := amount t;
  currency := currency t;
  status := "refunded";
  createdAt := createdAt t;
  metadata := metadata t;
  billingInfo := billingInfo t;
  refundedAt := Some (now e);
  refundAmount := Some (js_or (prop "amount" body) (amount t));
  refundReason := Some (js_or (prop "reason" body) (JStr "customer_request"))
|}.

(** The transaction after the first two assignments of that path, the
    third one throwing on [req.body.amount] because the request has no
    body: the stored object has changed already. *)
Definition interrupted (e : env) (t : transaction) : transaction := {|
  id := id t;
  paymentMethod := paymentMethod t;
  amount := amount t;
  currency := currency t;
  status := "refunded";
  createdAt := createdAt t;
  metadata := metadata t;
  billingInfo := billingInfo t;
  refundedAt := Some (now e);
  refundAmount := refundAmount t;
  refundReason := refundReason t
|}.

(** [POST /api/payments/:id/refund] *)
Definition refundPayment (e : env) (transactionId : string) (body : jsval)
    (transactions : gmap string transaction)
  : response * gmap string transaction :=
  match transactions !! transactionId with
  | None => (fail 404 "transaction_not_found" "Transaction not found", transactions)
  | Some transaction =>
    if String.eqb (status transaction) "refunded" then
      (fail 400 "already_refunded" "This transaction has already been refunded",
       transactions)
    else if Qltb (random_error e) (errorRate cfg) then
      (fail 500 "refund_processing_error"
            "An error occurred while processing the refund. Please try again.",
       transactions)
    else if no_body body then
      (server_error, <[transactionId := interrupted e transaction]> transactions)
    else
      let transaction := refunded e body transaction in
      ({| http_status := 200; ok := true;
          data := RefundData (id transaction) "refunded"
                             (js_or (prop "amount" body) (amount transaction))
                             (now e)
                             (js_or (prop "reason" body) (JStr "customer_request")) |},
       <[transactionId := transaction]> transactions)
  end.

(** [resetTransactions()] *)
Definition resetTransactions (transactions : gmap string transaction)
  : gmap string transaction := ∅.

(** [getTestCards()] *)
Definition getTestCards : test_cards := testCards cfg.

(** One call on the service. *)
Inductive call : Type :=
| ProcessPayment (e : env) (body : jsval)
| GetPayment (transactionId : string)
| RefundPayment (e : env) (transactionId : string) (body : jsval)
| ResetTransactions.

Definition perform (c : call) (transactions : gmap string transaction)
  : option response * gmap string transaction :=
  match c with
  | ProcessPayment e body =>
    let '(r, s) := processPayment e body transactions in (Some r, s)
  | GetPayment i =>
    let '(r, s) := getPayment i transactions in (Some r, s)
  | RefundPayment e i body =>
    let '(r, s) := refundPayment e i body transactions in (Some r, s)
  | ResetTransactions => (None, resetTransactions transactions)
  end.

(** The store after a sequence of calls. *)
Definition run (calls : list call) (transactions : gmap string transaction)
  : gmap string transaction :=
  fold_left (fun s c => (perform c s).2) calls transactions.

End Handlers.

(** ** Vocabulary of the properties *)

(** The answer to an unknown identifier. *)
Definition not_found : response :=
  fail 404 "transaction_not_found" "Transaction not found".

(** Calls after which the transaction stored under [i] is still the same
    one: anything but a reset, and a payment only if the identifier it
    generates is not [i]. *)
Definition keeps (i : string) (c : call) : Prop :=
  match c with
  | ResetTransactions => False
  | ProcessPayment e _ => uuid e <> i
  | GetPayment _ | RefundPayment _ _ _ => True
  end.

Definition legal_status (t : transaction) : Prop :=
  status t = "succeeded" \/ status t = "refunded".

(** Every stored transaction is [succeeded] or [refunded]. *)
Definition store_ok (s : gmap string transaction) : Prop :=
  map_Forall (fun _ t => legal_status t) s.

(** The identifier [uuidv4()] hands to a payment is not in use. *)
Definition fresh_uuid (c : call) (s : gmap string transaction) : Prop :=
  match c with
  | ProcessPayment e _ => s !! uuid e = None
  | _ => True
  end.

(** ** Sample requests *)

(** The body [{ paymentMethod: 'credit_card', amount, currency,
    cardDetails: { number } }]. *)
Definition card_payment (amt cur : jsval) (number : string) : jsval :=
  JObj [("paymentMethod", JStr "credit_card"); ("amount", amt);
        ("currency", cur); ("cardDetails", JObj [("number", JStr number)])].

(** Draws of 0.5 for the error roll and 0.05 for the decline roll. *)
Definition sample_env : env :=
  {| random_error := 1 # 2; random_decline := 1 # 20;
     uuid := "7d4d8c0e-3c55-4c0b-9d3e-0f6c1a2b3c4d";
     now := "2024-01-01T00:00:00.000Z" |}.

(** ** The listing of payment methods *)

Record payment_methods : Type := {
  paymentMethods : list string;
  defaultMethod : string       (* preferences.defaultMethod *)
}.

(** [GET /api/payment-methods] *)
Definition getPaymentMethods (cfg : config) : payment_methods :=
  {| paymentMethods := availablePaymentMethods cfg;
     defaultMethod := "credit_card" |}.

(** ** Vocabulary of the properties of the whole service *)

(** The three required fields pass [processPayment]'s first check. *)
Definition required_fields (body : jsval) : bool :=
  truthy (prop "paymentMethod" body) && truthy (prop "amount" body)
  && truthy (prop "currency" body).

(** The request passes the two validations and the error roll. *)
Definition admitted (cfg : config) (e : env) (body : jsval) : bool :=
  required_fields body
  && includes (availablePaymentMethods cfg) (prop "paymentMethod" body)
  && negb (Qltb (random_error e) (errorRate cfg)).

(** The answer of the test-card block for this request, the block being
    skipped for the methods other than [credit_card]. *)
Definition card_block (cfg : config) (body : jsval) : option response :=
  if strict_eq_str (prop "paymentMethod" body) "credit_card"
  then test_card_outcome cfg (prop "cardDetails" body) else None.

(** The decline roll fires. *)
Definition declined (cfg : config) (e : env) (body : jsval) : bool :=
  Qltb (random_decline e) (declineRate cfg)
  && negb (strict_eq_str (prop "number" (prop "cardDetails" body))
                         (success (testCards cfg))).

(** The answer of a payment that created a transaction. *)
Definition created (e : env) (body : jsval) : response :=
  {| http_status := 201; ok := true;
     data := PaymentData (uuid e) "succeeded" (prop "amount" body)
                         (prop "currency" body) (now e) |}.

(** Each transaction is stored under its own identifier. *)
Definition ids_match (s : gmap string transaction) : Prop :=
  map_Forall (fun k t => id t = k) s.

(** A transaction carries a refund time exactly when it is refunded, and
    then either both a refund amount and a reason, truthy, or neither, the
    latter after a refund whose handler threw. *)
Definition refund_recorded (t : transaction) : Prop :=
  (status t = "succeeded" /\ refundedAt t = None
   /\ refundAmount t = None /\ refundReason t = None)
  \/ (status t = "refunded" /\ is_Some (refundedAt t)
      /\ (((exists a, refundAmount t = Some a /\ truthy a = true)
           /\ (exists r, refundReason t = Some r /\ truthy r = true))
          \/ (refundAmount t = None /\ refundReason t = None))).

(** The transaction holds what the validations of [processPayment] let
    through. *)
Definition validated (cfg : config) (t : transaction) : Prop :=
  truthy (amount t) = true /\ truthy (currency t) = true
  /\ exists m, paymentMethod t = JStr m /\ In m (availablePaymentMethods cfg).

(** The text is ASCII: every byte is below 128. *)
Fixpoint ascii_text (s : string) : bool :=
  match s with
  | EmptyString => true
  | String a rest => (N_of_ascii a <? 128)%N && ascii_text rest
  end.

(** The text without its TAB, LF, VT, FF, CR and SPACE characters. *)
Fixpoint drop_ws1 (s : string) : string :=
  match s with
  | EmptyString => EmptyString
  | String a rest => if ws1 a then drop_ws1 rest else String a (drop_ws1 rest)
  end.

(** A draw of 0.01 for the error roll, below the default error rate. *)
Definition flaky_env : env :=
  {| random_error := 1 # 100; random_decline := 1 # 2;
     uuid := "0b0e1c9a-52a1-4a58-8d5b-2f1f3c6f7a90";
     now := "2024-01-02T00:00:00.000Z" |}.

(** The card error codes, which only the test-card block gives. *)
Definition card_only_codes : list string :=
  ["invalid_card_details"; "card_declined"; "invalid_cvv"; "expired_card";
   "insufficient_funds"; "invalid_card"].

(** ** Proof steps shared by the handlers' lemmas *)

(** Reduce the projections of an answer, leaving the store alone. *)
Ltac answer := cbn [fst snd http_status ok data error_code fail server_error].

(** Read a literal request body. *)
Ltac read_body :=
  cbn [no_body prop assoc String.eqb Ascii.eqb Bool.eqb truthy strict_eq_str
       negb orb andb].

(** Settle a goal on the answer of the test-card block. *)
Ltac by_test_card :=
  match goal with
  | H : test_card_outcome _ _ = Some _ |- _ =>
    revert H; unfold test_card_outcome; repeat case_match;
      intros [= <-]; answer; congruence
  end.

(** Split the membership of an answer in a list of pairs of status and
    code, [H] being the conjunction of [ok r = false] and the membership. *)
Ltac split_answers H :=
  destruct H as [? H]; cbn [In] in H;
  repeat (destruct H as [[= ? ?]|H]); [..|contradiction].

(** ** Basic facts *)

Lemma Qltb_true (x y : Q) : Qltb x y = true <-> (x < y)%Q.
Proof.
  unfold Qltb. rewrite negb_true_iff, <- not_true_iff_false, Qle_bool_iff.
  split; [apply Qnot_le_lt | apply Qlt_not_le].
Qed.

Lemma Qltb_false (x y : Q) : Qltb x y = false <-> (y <= x)%Q.
Proof. unfold Qltb. rewrite negb_false_iff. apply Qle_bool_iff. Qed.

(** A draw of [Math.random()] is never below a zero probability. *)
Lemma no_roll_at_zero (r rate : Q) :
  (rate == 0)%Q -> (0 <= r)%Q -> Qltb r rate = false.
Proof. intros Hz Hr. apply Qltb_false. now rewrite Hz. Qed.

Lemma truthy_JNum (q : Q) : truthy (JNum q) = true <-> ~ (q == 0)%Q.
Proof.
  unfold truthy, Qeq. cbn. rewrite negb_true_iff, Z.eqb_neq.
  split; intros H E; apply H; lia.
Qed.

Lemma strict_eq_str_true (v : jsval) (s : string) :
  strict_eq_str v s = true <-> v = JStr s.
Proof.
  destruct v; cbn; try (split; [discriminate | congruence]).
  rewrite String.eqb_eq. split; congruence.
Qed.

(** A body one of whose properties is read with a value is there. *)
Lemma prop_str_body (k : string) (v : jsval) (s : string) :
  prop k v = JStr s -> no_body v = false.
Proof. now destruct v. Qed.

Lemma truthy_prop_body (k : string) (v : jsval) :
  truthy (prop k v) = true -> no_body v = false.
Proof. now destruct v. Qed.

Lemma includes_In (l : list string) (s : string) :
  In s l -> includes l (JStr s) = true.
Proof.
  intros H. unfold includes. apply existsb_exists.
  exists s. split; [assumption | now apply strict_eq_str_true].
Qed.

(** Whitespace of one, two and three bytes is removed, digits are kept. *)
Example strip_whitespace_mixed :
  strip_whitespace
    (String (ascii_of_N 9)
       ("41 11" ++ String (ascii_of_N 194) (String (ascii_of_N 160)
          ("11" ++ String (ascii_of_N 226) (String (ascii_of_N 128)
             (String (ascii_of_N 131) "1 ")))))) = "4111111".
Proof. reflexivity. Qed.

(** ** The test-card block *)

Section TestCards.

Variable cfg : config.
Hypothesis default_cards : testCards cfg = DEFAULT_TEST_CARDS.


(** With the default table no card reaches the [expired_card] answer: the
    expired card and the generic error card are the same number, and the
    generic error card is compared first. *)
Lemma test_card_never_expired (cardDetails : jsval) (r : response) :
  test_card_outcome cfg cardDetails = Some r ->
  error_code r <> Some "expired_card".
Proof.
  unfold test_card_outcome. rewrite default_cards. cbn [error expiredCard
    decline cvvError insufficientFunds invalidCard DEFAULT_TEST_CARDS].
  repeat case_match; intros [= <-]; cbn; congruence.
Qed.

(** The guaranteed-success card, with or without whitespace, passes the
    test-card block. *)
Lemma test_card_success_passes (cardDetails : jsval) (number : string) :
  prop "number" cardDetails = JStr number ->
  strip_whitespace number = success DEFAULT_TEST_CARDS ->
  test_card_outcome cfg cardDetails = None.
Proof.
  intros Hn E. unfold test_card_outcome. rewrite Hn, default_cards, E.
  destruct cardDetails; try discriminate.
  destruct number; [discriminate E | reflexivity].
Qed.

End TestCards.

Lemma sample_env_valid : valid_env sample_env.
Proof. repeat split; cbn; discriminate. Qed.

(** ** Process payment: the error cards *)

(** C1 (the code departs from the claim). Under the default card table and
    an error probability of 0, a payment with the expired-card number
    4000000000000069 is answered 500 [processing_error], not [expired_card],
    for every truthy amount and currency: the table gives the expired card
    and the generic error card the same number. No request at all is
    answered [expired_card] under the default table, whatever the
    probabilities and the draws. *)
Theorem expired_card_answers_processing_error :
  (forall (amt cur : jsval) (s : gmap string transaction),
     truthy amt = true -> truthy cur = true ->
     processPayment (with_rates 0 (1 # 10) DEFAULT_CONFIG) sample_env
       (card_payment amt cur (expiredCard DEFAULT_TEST_CARDS)) s
     = (fail 500 "processing_error"
          "An error occurred while processing the card. Please try again.", s))
  /\ (forall (err dec : Q) (e : env) (body : jsval) (s : gmap string transaction),
        error_code (processPayment (with_rates err dec DEFAULT_CONFIG) e body s).1
        <> Some "expired_card").
Proof.
  split.
  - intros amt cur s Ha Hc. unfold processPayment, card_payment.
    read_body. rewrite Ha, Hc. reflexivity.
  - intros err dec e body s. unfold processPayment.
    repeat case_match; answer; try congruence.
    all: match goal with
         | H : test_card_outcome _ _ = Some _ |- _ =>
           now apply test_card_never_expired in H
         end.
Qed.

Lemma expired_card_answers_processing_error_witness :
  processPayment (with_rates 0 (1 # 10) DEFAULT_CONFIG) sample_env
    (card_payment (JNum 100) (JStr "USD") "4000000000000069") ∅
  = (fail 500 "processing_error"
       "An error occurred while processing the card. Please try again.", ∅).
Proof.
  apply (proj1 expired_card_answers_processing_error); reflexivity.
Defined.


(** ** Process payment: the guaranteed-success card *)

(** C2 (the code departs from the claim). The card number
    ["4111 1111 1111 1111"] is the guaranteed-success number once its
    whitespace is stripped, and it passes the test-card block; yet under the
    default configuration, with draws 0.5 and 0.05, the payment is answered
    402 [payment_declined]: the decline roll compares the number as
    received, not the stripped one. *)
Theorem spaced_success_card_is_declined :
  strip_whitespace "4111 1111 1111 1111" = success (testCards DEFAULT_CONFIG)
  /\ forall s : gmap string transaction,
       processPayment DEFAULT_CONFIG sample_env
         (card_payment (JNum 100) (JStr "USD") "4111 1111 1111 1111") s
       = (fail 402 "payment_declined"
            "The payment was declined. Please try another payment method.", s).
Proof.
  split; [reflexivity|]. intros s.
  unfold processPayment, card_payment. read_body. reflexivity.
Qed.

(** X7. When the number as received is the guaranteed-success number, no
    decline probability and no draw give [payment_declined]. *)
Lemma exact_success_card_never_declined (cfg : config) (e : env) (body : jsval)
    (s : gmap string transaction) :
  prop "number" (prop "cardDetails" body) = JStr (success (testCards cfg)) ->
  error_code (processPayment cfg e body s).1 <> Some "payment_declined".
Proof.
  intros Hn. unfold processPayment. rewrite Hn.
  assert (strict_eq_str (JStr (success (testCards cfg))) (success (testCards cfg))
          = true) as -> by now apply strict_eq_str_true.
  rewrite andb_false_r.
  repeat case_match; answer; try congruence; by_test_card.
Qed.
(** C3 as stated fails: an amount of 0 is present in the request, yet the
    payment with the guaranteed-success card and both probabilities 0 is
    answered 400 [invalid_request] and nothing is stored. *)
Lemma zero_amount_success_card_rejected :
  let body := card_payment (JNum 0) (JStr "USD") "4111111111111111" in
  let out := processPayment (with_rates 0 0 DEFAULT_CONFIG) sample_env body ∅ in
  prop "paymentMethod" body = JStr "credit_card"
  /\ prop "amount" body = JNum 0
  /\ prop "currency" body = JStr "USD"
  /\ prop "number" (prop "cardDetails" body) = JStr (success DEFAULT_TEST_CARDS)
  /\ http_status out.1 = 400%N
  /\ ok out.1 = false
  /\ error_code out.1 = Some "invalid_request"
  /\ out.2 = ∅.
Proof.
  cbv zeta. unfold processPayment, card_payment. read_body. repeat split.
Qed.

(** A card whose stripped number is the guaranteed-success number passes
    the test-card block, when that number is not empty and is none of the
    six error numbers of the table. *)
Lemma test_card_success_passes_any (cfg : config) (cardDetails : jsval)
    (number : string) :
  success (testCards cfg) <> "" ->
  ~ In (success (testCards cfg))
       [decline (testCards cfg); error (testCards cfg);
        cvvError (testCards cfg); expiredCard (testCards cfg);
        insufficientFunds (testCards cfg); invalidCard (testCards cfg)] ->
  prop "number" cardDetails = JStr number ->
  strip_whitespace number = success (testCards cfg) ->
  test_card_outcome cfg cardDetails = None.
Proof.
  intros Hne Hout Hn E. unfold test_card_outcome. rewrite Hn, E.
  assert (truthy cardDetails = true) as -> by (now destruct cardDetails).
  assert (truthy (JStr number) = true) as ->.
  { destruct number; [|reflexivity]. now destruct Hne. }
  cbn [negb orb]. cbn [In] in Hout.
  repeat match goal with
         | |- context [String.eqb ?a ?b] =>
           let H := fresh in
           destruct (String.eqb_spec a b) as [H|H];
             [exfalso; symmetry in H; tauto|]
         end.
  reflexivity.
Qed.

(** C3 (amended). For every payment request with method [credit_card], a
    truthy amount and currency (for a number: not zero; for a string: not
    empty), and a card number that is, once whitespace is stripped, the
    configured guaranteed-success number, that number being non-empty and
    none of the six configured error-card numbers: when [credit_card] is a
    supported method and the error and decline probabilities are 0, the
    answer is HTTP 201 with [success: true], status [succeeded], the amount
    and currency as submitted, and the new transaction is stored under the
    generated identifier. *)
Theorem success_card_payment_succeeds (cfg : config) (e : env) (body : jsval)
    (number : string) (s : gmap string transaction) :
  In "credit_card" (availablePaymentMethods cfg) ->
  success (testCards cfg) <> "" ->
  ~ In (success (testCards cfg))
       [decline (testCards cfg); error (testCards cfg);
        cvvError (testCards cfg); expiredCard (testCards cfg);
        insufficientFunds (testCards cfg); invalidCard (testCards cfg)] ->
  (errorRate cfg == 0)%Q -> (declineRate cfg == 0)%Q ->
  valid_env e ->
  prop "paymentMethod" body = JStr "credit_card" ->
  truthy (prop "amount" body) = true ->
  truthy (prop "currency" body) = true ->
  prop "number" (prop "cardDetails" body) = JStr number ->
  strip_whitespace number = success (testCards cfg) ->
  processPayment cfg e body s
  = ({| http_status := 201; ok := true;
        data := PaymentData (uuid e) "succeeded" (prop "amount" body)
                            (prop "currency" body) (now e) |},
     <[uuid e := new_transaction e body]> s)
  /\ status (new_transaction e body) = "succeeded"
  /\ amount (new_transaction e body) = prop "amount" body
  /\ currency (new_transaction e body) = prop "currency" body.
Proof.
  intros Hm Hne Hout Herr Hdec [[He _] [Hd _]] Hpm Ha Hc Hn Hs.
  split; [|repeat split].
  unfold processPayment.
  rewrite (prop_str_body _ _ _ Hpm), Hpm, Ha, Hc. cbn [truthy negb orb].
  rewrite (includes_In _ _ Hm), (no_roll_at_zero _ _ Herr He). cbn [negb].
  cbn [strict_eq_str String.eqb Ascii.eqb Bool.eqb].
  rewrite (test_card_success_passes_any cfg _ _ Hne Hout Hn Hs).
  rewrite (no_roll_at_zero _ _ Hdec Hd). reflexivity.
Qed.

Lemma success_card_payment_succeeds_witness :
  let body := card_payment (JNum 100) (JStr "USD") "4111 1111 1111 1111" in
  processPayment (with_rates 0 0 DEFAULT_CONFIG) sample_env body ∅
  = ({| http_status := 201; ok := true;
        data := PaymentData (uuid sample_env) "succeeded" (prop "amount" body)
                            (prop "currency" body) (now sample_env) |},
     <[uuid sample_env := new_transaction sample_env body]> ∅)
  /\ status (new_transaction sample_env body) = "succeeded"
  /\ amount (new_transaction sample_env body) = prop "amount" body
  /\ currency (new_transaction sample_env body) = prop "currency" body.
Proof.
  apply (success_card_payment_succeeds (with_rates 0 0 DEFAULT_CONFIG) sample_env
           (card_payment (JNum 100) (JStr "USD") "4111 1111 1111 1111")
           "4111 1111 1111 1111" ∅);
    try reflexivity.
  - cbn [In availablePaymentMethods with_rates DEFAULT_CONFIG]. auto.
  - discriminate.
  - cbn [In testCards with_rates DEFAULT_CONFIG DEFAULT_TEST_CARDS success
           decline error cvvError expiredCard insufficientFunds invalidCard].
    intros H. repeat (destruct H as [H|H]; [discriminate H|]). exact H.
  - apply sample_env_valid.
Defined.

(** ** Process payment followed by get payment *)

(** A successful answer of [processPayment] comes from its last branch. *)
Lemma processPayment_ok_inv (cfg : config) (e : env) (body : jsval)
    (s : gmap string transaction) :
  ok (processPayment cfg e body s).1 = true ->
  processPayment cfg e body s
  = ({| http_status := 201; ok := true;
        data := PaymentData (uuid e) "succeeded" (prop "amount" body)
                            (prop "currency" body) (now e) |},
     <[uuid e := new_transaction e body]> s).
Proof.
  unfold processPayment.
  repeat case_match; answer; try discriminate; try reflexivity; by_test_card.
Qed.

(** A failed answer of [processPayment] leaves the store as it was. *)
Lemma processPayment_failed_store (cfg : config) (e : env) (body : jsval)
    (s : gmap string transaction) :
  ok (processPayment cfg e body s).1 = false ->
  (processPayment cfg e body s).2 = s.
Proof.
  unfold processPayment. repeat case_match; answer; congruence.
Qed.

(** C4. After every successful process-payment call, get-payment on the
    returned identifier answers 200 with [success: true] and a transaction
    whose payment method, amount and currency are the submitted values and
    whose status is [succeeded]. *)
Theorem get_after_process (cfg : config) (e : env) (body : jsval)
    (s s' : gmap string transaction) (r : response) :
  processPayment cfg e body s = (r, s') ->
  ok r = true ->
  exists transactionId st amt cur created,
    data r = PaymentData transactionId st amt cur created
    /\ getPayment transactionId s'
       = ({| http_status := 200; ok := true;
             data := DetailsData transactionId (prop "paymentMethod" body)
                       (prop "amount" body) (prop "currency" body)
                       "succeeded" created
                       (js_or (prop "metadata" body) (JObj [])) |}, s').
Proof.
  intros Hp Hok.
  assert (ok (processPayment cfg e body s).1 = true) as H by now rewrite Hp.
  apply processPayment_ok_inv in H. rewrite Hp in H. injection H as -> ->.
  exists (uuid e), "succeeded", (prop "amount" body), (prop "currency" body), (now e).
  split; [reflexivity|].
  unfold getPayment. rewrite lookup_insert_eq. reflexivity.
Qed.

Lemma get_after_process_witness :
  exists transactionId st amt cur created,
    data {| http_status := 201; ok := true;
            data := PaymentData (uuid sample_env) "succeeded" (JNum 100)
                                (JStr "USD") (now sample_env) |}
    = PaymentData transactionId st amt cur created
    /\ getPayment transactionId
         (<[uuid sample_env :=
              new_transaction sample_env
                (card_payment (JNum 100) (JStr "USD") "4111111111111111")]> ∅)
       = ({| http_status := 200; ok := true;
             data := DetailsData transactionId (JStr "credit_card")
                       (JNum 100) (JStr "USD") "succeeded" created (JObj []) |},
          <[uuid sample_env :=
              new_transaction sample_env
                (card_payment (JNum 100) (JStr "USD") "4111111111111111")]> ∅).
Proof.
  apply (get_after_process (with_rates 0 0 DEFAULT_CONFIG) sample_env
           (card_payment (JNum 100) (JStr "USD") "4111111111111111") ∅);
    reflexivity.
Defined.

(** ** Required fields *)

(** C7 as stated fails: in this PayPal payment the three required fields
    are present, the amount being the number 0, and the answer is 400
    [invalid_request]. *)
Lemma zero_amount_is_invalid_request :
  let body := JObj [("paymentMethod", JStr "paypal"); ("amount", JNum 0);
                    ("currency", JStr "EUR")] in
  let out := processPayment DEFAULT_CONFIG sample_env body ∅ in
  prop "paymentMethod" body <> JUndefined
  /\ prop "amount" body = JNum 0
  /\ prop "currency" body <> JUndefined
  /\ out.1 = fail 400 "invalid_request" missing_fields_message.
Proof.
  cbv zeta. unfold processPayment. read_body. repeat split; discriminate.
Qed.

(** C7 (amended). For every request that carries a body, process payment
    answers [invalid_request] (HTTP 400, store untouched) exactly when the
    payment method, the amount or the currency is falsy: absent, [null],
    [false], the number 0 or the empty string. Every such request whose three
    fields are truthy, a non-zero number of either sign being a truthy
    amount, passes this check and reaches the next one, which rejects an
    unsupported method with [invalid_payment_method]. *)
Theorem invalid_request_iff_falsy (cfg : config) (e : env) (body : jsval)
    (s : gmap string transaction) :
  no_body body = false ->
  let falsy_field :=
    truthy (prop "paymentMethod" body) = false
    \/ truthy (prop "amount" body) = false
    \/ truthy (prop "currency" body) = false in
  (error_code (processPayment cfg e body s).1 = Some "invalid_request"
   <-> falsy_field)
  /\ (falsy_field ->
      processPayment cfg e body s
      = (fail 400 "invalid_request" missing_fields_message, s))
  /\ (~ falsy_field ->
      includes (availablePaymentMethods cfg) (prop "paymentMethod" body) = false ->
      error_code (processPayment cfg e body s).1 = Some "invalid_payment_method")
  /\ truthy JUndefined = false
  /\ forall q : Q, truthy (JNum q) = true <-> ~ (q == 0)%Q.
Proof.
  intros Hbody. cbv zeta.
  assert (forall b, b = true \/ b = false) as Hb by (intros []; auto).
  split; [|split; [|split; [|split]]].
  - unfold processPayment. rewrite Hbody.
    destruct (Hb (truthy (prop "paymentMethod" body))) as [Hp|Hp];
      destruct (Hb (truthy (prop "amount" body))) as [Ha|Ha];
      destruct (Hb (truthy (prop "currency" body))) as [Hc|Hc];
      rewrite Hp, Ha, Hc; cbn [negb orb]; try (answer; tauto).
    split; [|intros [|[|]]; discriminate].
    repeat case_match; answer; try discriminate; by_test_card.
  - unfold processPayment. rewrite Hbody.
    intros [-> | [-> | ->]]; cbn [negb orb]; rewrite ?orb_true_r; reflexivity.
  - intros Hf Hi. unfold processPayment. rewrite Hbody.
    destruct (Hb (truthy (prop "paymentMethod" body))) as [Hp|Hp]; [|tauto].
    destruct (Hb (truthy (prop "amount" body))) as [Ha|Ha]; [|tauto].
    destruct (Hb (truthy (prop "currency" body))) as [Hc|Hc]; [|tauto].
    rewrite Hp, Ha, Hc, Hi. reflexivity.
  - reflexivity.
  - apply truthy_JNum.
Qed.

Lemma invalid_request_iff_falsy_witness :
  let body := JObj [("paymentMethod", JStr "paypal"); ("currency", JStr "EUR")] in
  let falsy_field :=
    truthy (prop "paymentMethod" body) = false
    \/ truthy (prop "amount" body) = false
    \/ truthy (prop "currency" body) = false in
  (error_code (processPayment DEFAULT_CONFIG sample_env body ∅).1
   = Some "invalid_request" <-> falsy_field)
  /\ (falsy_field ->
      processPayment DEFAULT_CONFIG sample_env body ∅
      = (fail 400 "invalid_request" missing_fields_message, ∅))
  /\ (~ falsy_field ->
      includes (availablePaymentMethods DEFAULT_CONFIG)
               (prop "paymentMethod" body) = false ->
      error_code (processPayment DEFAULT_CONFIG sample_env body ∅).1
      = Some "invalid_payment_method")
  /\ truthy JUndefined = false
  /\ forall q : Q, truthy (JNum q) = true <-> ~ (q == 0)%Q.
Proof.
  apply (invalid_request_iff_falsy DEFAULT_CONFIG sample_env
           (JObj [("paymentMethod", JStr "paypal"); ("currency", JStr "EUR")]) ∅).
  reflexivity.
Defined.

(** ** Get and refund on an unknown identifier *)

(** C6. Get-payment and refund-payment answer [transaction_not_found]
    exactly when the identifier is not in the store, and the answer is then
    HTTP 404; after a reset both answer it for every identifier, those of
    previously stored transactions included. *)
Theorem not_found_iff_absent (cfg : config) (e : env) (i : string)
    (body : jsval) (s : gmap string transaction) :
  (error_code (getPayment i s).1 = Some "transaction_not_found" <-> s !! i = None)
  /\ (error_code (refundPayment cfg e i body s).1 = Some "transaction_not_found"
      <-> s !! i = None)
  /\ (s !! i = None ->
      getPayment i s = (not_found, s)
      /\ refundPayment cfg e i body s = (not_found, s))
  /\ getPayment i (resetTransactions s) = (not_found, resetTransactions s)
  /\ refundPayment cfg e i body (resetTransactions s)
     = (not_found, resetTransactions s).
Proof.
  unfold getPayment, refundPayment, resetTransactions.
  rewrite lookup_empty.
  destruct (s !! i) as [t|] eqn:Hi.
  - repeat split; try discriminate; repeat case_match; answer; discriminate.
  - repeat split; reflexivity.
Qed.

(** ** Refunds *)

(** The five ways a refund ends: three leave the store as it was, the
    fourth is the success path, and on the fifth the handler throws after
    its first two assignments. *)
Lemma refundPayment_cases (cfg : config) (e : env) (i : string) (body : jsval)
    (s : gmap string transaction) :
  (s !! i = None /\ refundPayment cfg e i body s = (not_found, s))
  \/ (exists t, s !! i = Some t /\ status t = "refunded"
      /\ refundPayment cfg e i body s
         = (fail 400 "already_refunded"
              "This transaction has already been refunded", s))
  \/ (exists t, s !! i = Some t /\ status t <> "refunded"
      /\ Qltb (random_error e) (errorRate cfg) = true
      /\ refundPayment cfg e i body s
         = (fail 500 "refund_processing_error"
              "An error occurred while processing the refund. Please try again.",
            s))
  \/ (exists t, s !! i = Some t /\ status t <> "refunded"
      /\ Qltb (random_error e) (errorRate cfg) = false
      /\ refundPayment cfg e i body s
         = ({| http_status := 200; ok := true;
               data := RefundData (id t) "refunded"
                         (js_or (prop "amount" body) (amount t)) (now e)
                         (js_or (prop "reason" body) (JStr "customer_request")) |},
            <[i := refunded e body t]> s))
  \/ (exists t, s !! i = Some t /\ status t <> "refunded"
      /\ Qltb (random_error e) (errorRate cfg) = false
      /\ no_body body = true
      /\ refundPayment cfg e i body s
         = (server_error, <[i := interrupted e t]> s)).
Proof.
  unfold refundPayment. destruct (s !! i) as [t|]; [|left; auto].
  right. destruct (String.eqb_spec (status t) "refunded") as [E|E].
  - left. eauto.
  - right. destruct (Qltb (random_error e) (errorRate cfg)) eqn:R.
    + left. exists t. auto.
    + right. destruct (no_body body) eqn:B.
      * right. exists t. auto.
      * left. exists t. auto.
Qed.

Lemma refunded_kept (cfg : config) (i : string) (t : transaction) (c : call)
    (s : gmap string transaction) :
  keeps i c -> s !! i = Some t -> status t = "refunded" ->
  (perform cfg c s).2 !! i = Some t.
Proof.
  intros Hk Hi Hst.
  destruct c as [e body|j|e j body|]; cbn [keeps perform] in *.
  - destruct (processPayment cfg e body s) as [r s'] eqn:Hp. cbn [snd].
    destruct (ok r) eqn:Hok.
    + assert (ok (processPayment cfg e body s).1 = true) as H by now rewrite Hp.
      apply processPayment_ok_inv in H. rewrite Hp in H. injection H as _ ->.
      now rewrite lookup_insert_ne.
    + assert (ok (processPayment cfg e body s).1 = false) as H by now rewrite Hp.
      apply processPayment_failed_store in H. rewrite Hp in H.
      cbn [snd] in H. now subst.
  - unfold getPayment. now destruct (s !! j).
  - destruct (refundPayment_cases cfg e j body s)
      as [[_ ->]|[(u & _ & _ & ->)|[(u & _ & _ & _ & ->)
         |[(u & Hj & Hn & _ & ->)|(u & Hj & Hn & _ & _ & ->)]]]];
      cbn [snd]; try assumption.
    all: destruct (decide (j = i)) as [->|Hne];
      [congruence | now rewrite lookup_insert_ne].
  - contradiction.
Qed.

Lemma refunded_kept_run (cfg : config) (i : string) (t : transaction)
    (calls : list call) (s : gmap string transaction) :
  Forall (keeps i) calls -> s !! i = Some t -> status t = "refunded" ->
  run cfg calls s !! i = Some t.
Proof.
  intros Hk. revert s. induction Hk as [|c calls Hc _ IH]; intros s Hi Hst.
  - exact Hi.
  - cbn [run fold_left]. apply IH; [|exact Hst]. now apply refunded_kept.
Qed.

(** A stored transaction that is [refunded] is refused every refund, as
    long as the store is not reset and no payment takes its identifier. *)
Lemma already_refunded_later (cfg : config) (i : string) (t : transaction)
    (calls : list call) (e : env) (body : jsval) (s : gmap string transaction) :
  Forall (keeps i) calls -> s !! i = Some t -> status t = "refunded" ->
  refundPayment cfg e i body (run cfg calls s)
  = (fail 400 "already_refunded" "This transaction has already been refunded",
     run cfg calls s).
Proof.
  intros Hk Hi Hst.
  pose proof (refunded_kept_run cfg i t calls s Hk Hi Hst) as Hl.
  unfold refundPayment at 1. rewrite Hl, Hst. reflexivity.
Qed.

(** For a refund request that carries a body: with an error probability
    of 0, the first refund of a stored transaction whose status is
    [succeeded] is answered 200 with [success: true], the stored transaction
    then has status [refunded] and carries a refund amount, a refund
    timestamp and a reason, and every later refund of it is answered 400
    [already_refunded]. *)
Lemma refund_once_then_already_refunded (cfg : config) (e : env) (i : string)
    (body : jsval) (t : transaction) (s : gmap string transaction) :
  no_body body = false ->
  (errorRate cfg == 0)%Q -> (0 <= random_error e)%Q ->
  s !! i = Some t -> status t = "succeeded" ->
  let out := refundPayment cfg e i body s in
  http_status out.1 = 200%N
  /\ ok out.1 = true
  /\ (exists amt reason,
        data out.1 = RefundData (id t) "refunded" amt (now e) reason
        /\ exists t',
             out.2 !! i = Some t'
             /\ status t' = "refunded"
             /\ refundAmount t' = Some amt
             /\ refundedAt t' = Some (now e)
             /\ refundReason t' = Some reason)
  /\ forall (calls : list call) (e' : env) (body' : jsval),
       Forall (keeps i) calls ->
       refundPayment cfg e' i body' (run cfg calls out.2)
       = (fail 400 "already_refunded"
            "This transaction has already been refunded",
          run cfg calls out.2).
Proof.
  intros Hb Herr He Hi Hst. cbv zeta.
  destruct (refundPayment_cases cfg e i body s)
    as [[Hn _]|[(u & Hu & Hr & _)|[(u & _ & _ & R & _)
       |[(u & Hu & _ & _ & ->)|(u & _ & _ & _ & B & _)]]]].
  - congruence.
  - rewrite Hi in Hu. injection Hu as <-. rewrite Hst in Hr. discriminate.
  - rewrite (no_roll_at_zero _ _ Herr He) in R. discriminate.
  - rewrite Hi in Hu. injection Hu as <-. cbn [fst snd http_status ok data].
    repeat split.
    + eexists _, _. split; [reflexivity|].
      exists (refunded e body t). rewrite lookup_insert_eq. repeat split.
    + intros calls e' body' Hk.
      apply (already_refunded_later cfg i (refunded e body t));
        [exact Hk | apply lookup_insert_eq | reflexivity].
  - congruence.
Qed.

(** C5 (the code departs from the claim). With an error probability of 0,
    the first refund of a stored [succeeded] transaction, sent without a
    body, is not answered with success: the handler sets the status and the
    refund timestamp, throws on [req.body.amount], and the answer is 500
    [server_error]. The stored transaction is left [refunded] with no refund
    amount and no reason, and every later refund of it, with or without a
    body, is answered 400 [already_refunded]. *)
Theorem refund_without_body_half_refunds (i : string) (e0 : env)
    (body0 : jsval) (s : gmap string transaction) :
  let cfg := with_rates 0 0 DEFAULT_CONFIG in
  let t := new_transaction e0 body0 in
  let out := refundPayment cfg sample_env i JUndefined (<[i := t]> s) in
  status t = "succeeded"
  /\ out.1 = fail 500 "server_error" "An unexpected error occurred"
  /\ out.2 !! i = Some (interrupted sample_env t)
  /\ status (interrupted sample_env t) = "refunded"
  /\ refundedAt (interrupted sample_env t) = Some (now sample_env)
  /\ refundAmount (interrupted sample_env t) = None
  /\ refundReason (interrupted sample_env t) = None
  /\ forall (calls : list call) (e' : env) (body' : jsval),
       Forall (keeps i) calls ->
       refundPayment cfg e' i body' (run cfg calls out.2)
       = (fail 400 "already_refunded"
            "This transaction has already been refunded",
          run cfg calls out.2).
Proof.
  cbv zeta.
  assert (refundPayment (with_rates 0 0 DEFAULT_CONFIG) sample_env i JUndefined
            (<[i := new_transaction e0 body0]> s)
          = (server_error,
             <[i := interrupted sample_env (new_transaction e0 body0)]>
               (<[i := new_transaction e0 body0]> s))) as ->.
  { unfold refundPayment. rewrite lookup_insert_eq. reflexivity. }
  cbn [fst snd]. rewrite lookup_insert_eq. repeat split.
  intros calls e' body' Hk.
  apply (already_refunded_later _ i
           (interrupted sample_env (new_transaction e0 body0)));
    [exact Hk | apply lookup_insert_eq | reflexivity].
Qed.

(** C9 as stated fails: a refund request that supplies the amount 0 for a
    transaction of amount 100 succeeds and records a refund amount of 100,
    not the supplied 0. *)
Lemma zero_refund_amount_not_recorded :
  let t := new_transaction sample_env
             (card_payment (JNum 100) (JStr "USD") "4111111111111111") in
  let body := JObj [("amount", JNum 0); ("reason", JStr "duplicate")] in
  let out := refundPayment (with_rates 0 0 DEFAULT_CONFIG) sample_env "tx-1"
               body {[ "tx-1" := t ]} in
  prop "amount" body = JNum 0
  /\ ok out.1 = true
  /\ data out.1 = RefundData (id t) "refunded" (JNum 100) (now sample_env)
                    (JStr "duplicate")
  /\ (refundAmount <$> out.2 !! "tx-1") = Some (Some (JNum 100))
  /\ JNum 100 <> JNum 0.
Proof.
  cbv zeta. unfold refundPayment. rewrite lookup_singleton_eq.
  cbn [status new_transaction String.eqb Ascii.eqb Bool.eqb].
  change (Qltb _ _) with false. cbn [no_body]. cbv iota. answer.
  rewrite lookup_insert_eq.
  repeat split. discriminate.
Qed.

(** C9 (amended). On every successful refund the recorded refund amount is
    the amount the request supplies when that value is truthy (for a number:
    not zero), whatever its relation to the original amount, and the original
    amount of the transaction otherwise; the recorded reason is the reason the
    request supplies when it is truthy (for a string: not empty) and
    [customer_request] otherwise. The answer carries the same two values. *)
Theorem refund_amount_and_reason (cfg : config) (e : env) (i : string)
    (body : jsval) (s s' : gmap string transaction) (r : response) :
  refundPayment cfg e i body s = (r, s') ->
  ok r = true ->
  exists t t',
    s !! i = Some t /\ s' !! i = Some t'
    /\ refundAmount t'
       = Some (if truthy (prop "amount" body) then prop "amount" body
               else amount t)
    /\ refundReason t'
       = Some (if truthy (prop "reason" body) then prop "reason" body
               else JStr "customer_request")
    /\ (exists tid st at_,
          data r = RefundData tid st
                     (if truthy (prop "amount" body) then prop "amount" body
                      else amount t)
                     at_
                     (if truthy (prop "reason" body) then prop "reason" body
                      else JStr "customer_request")).
Proof.
  intros Hr Hok.
  destruct (refundPayment_cases cfg e i body s)
    as [[_ H]|[(t & _ & _ & H)|[(t & _ & _ & _ & H)
       |[(t & Ht & _ & _ & H)|(t & _ & _ & _ & _ & H)]]]];
    rewrite Hr in H; injection H as -> ->; try discriminate Hok.
  exists t, (refunded e body t). rewrite lookup_insert_eq.
  repeat split; try assumption. eexists _, _, _. reflexivity.
Qed.

Lemma refund_amount_and_reason_witness :
  let t := new_transaction sample_env
             (card_payment (JNum 100) (JStr "USD") "4111111111111111") in
  exists u u',
    ({[ "tx-1" := t ]} : gmap string transaction) !! "tx-1" = Some u
    /\ <[ "tx-1" := refunded sample_env (JObj [("amount", JNum 250)]) t ]>
         ({[ "tx-1" := t ]} : gmap string transaction) !! "tx-1" = Some u'
    /\ refundAmount u' = Some (JNum 250)
    /\ refundReason u' = Some (JStr "customer_request")
    /\ (exists tid st at_,
          RefundData (id t) "refunded" (JNum 250) (now sample_env)
                     (JStr "customer_request")
          = RefundData tid st (JNum 250) at_ (JStr "customer_request")).
Proof.
  cbv zeta.
  apply (refund_amount_and_reason (with_rates 0 0 DEFAULT_CONFIG) sample_env
           "tx-1" (JObj [("amount", JNum 250)])
           {[ "tx-1" := new_transaction sample_env
                (card_payment (JNum 100) (JStr "USD") "4111111111111111") ]}
           _
           {| http_status := 200; ok := true;
              data := RefundData (uuid sample_env) "refunded" (JNum 250)
                        (now sample_env) (JStr "customer_request") |}).
  - unfold refundPayment. rewrite lookup_singleton_eq. reflexivity.
  - reflexivity.
Defined.

(** A refund answered [transaction_not_found], [already_refunded] or
    [refund_processing_error] leaves the store exactly as it was, whatever
    the request; and a refund answered with success changes the one
    transaction under the given identifier. *)
Lemma refund_named_errors_leave_store (cfg : config) (e : env) (i : string)
    (body : jsval) (s : gmap string transaction) :
  let out := refundPayment cfg e i body s in
  (In (error_code out.1)
      [Some "transaction_not_found"; Some "already_refunded";
       Some "refund_processing_error"] ->
   out.2 = s)
  /\ (ok out.1 = true ->
      exists t, s !! i = Some t /\ status t <> "refunded"
                /\ out.2 = <[i := refunded e body t]> s).
Proof.
  cbv zeta.
  destruct (refundPayment_cases cfg e i body s)
    as [[_ ->]|[(t & _ & _ & ->)|[(t & _ & _ & _ & ->)
       |[(t & Ht & Hn & _ & ->)|(t & Ht & Hn & _ & _ & ->)]]]];
    answer; (split; [|intros Hok; try discriminate Hok]); try reflexivity.
  - cbn [In]. intros [H|[H|[H|[]]]]; discriminate H.
  - eauto.
  - cbn [In]. intros [H|[H|[H|[]]]]; discriminate H.
Qed.


(** ** The status invariant *)

(** What one call does to the store. *)
Lemma perform_store (cfg : config) (c : call) (s : gmap string transaction) :
  (perform cfg c s).2 = s
  \/ (exists e body, c = ProcessPayment e body
      /\ ok (processPayment cfg e body s).1 = true
      /\ (perform cfg c s).2 = <[uuid e := new_transaction e body]> s)
  \/ (exists e i body t u, c = RefundPayment e i body
      /\ s !! i = Some t /\ status t <> "refunded"
      /\ (u = refunded e body t \/ u = interrupted e t)
      /\ (perform cfg c s).2 = <[i := u]> s)
  \/ (c = ResetTransactions /\ (perform cfg c s).2 = ∅).
Proof.
  destruct c as [e body|j|e j body|]; cbn [perform].
  - destruct (ok (processPayment cfg e body s).1) eqn:Hok.
    + right; left. exists e, body. split; [reflexivity|]. split; [exact Hok|].
      apply processPayment_ok_inv in Hok. now rewrite Hok.
    + left. apply processPayment_failed_store in Hok.
      now destruct (processPayment cfg e body s).
  - left. unfold getPayment. now destruct (s !! j).
  - destruct (refundPayment_cases cfg e j body s)
      as [[_ ->]|[(t & _ & _ & ->)|[(t & _ & _ & _ & ->)
         |[(t & Ht & Hn & _ & ->)|(t & Ht & Hn & _ & _ & ->)]]]];
      cbn [snd]; auto.
    + right; right; left. exists e, j, body, t, (refunded e body t).
      repeat split; auto.
    + right; right; left. exists e, j, body, t, (interrupted e t).
      repeat split; auto.
  - right; right; right. auto.
Qed.

(** C8. Every call (process payment, get payment, refund, reset) keeps the
    invariant that each stored transaction has status [succeeded] or
    [refunded]. An identifier that enters the store does so with status
    [succeeded]; a stored transaction changes status only from [succeeded]
    to [refunded], the identifier generated for a payment being one that is
    not in use; and a payment attempt that fails leaves the store as it
    was. *)
Theorem status_invariant (cfg : config) (c : call)
    (s : gmap string transaction) :
  store_ok s ->
  let s' := (perform cfg c s).2 in
  store_ok s'
  /\ (forall i t', s !! i = None -> s' !! i = Some t' -> status t' = "succeeded")
  /\ (fresh_uuid c s ->
      forall i t t', s !! i = Some t -> s' !! i = Some t' ->
        status t' = status t
        \/ (status t = "succeeded" /\ status t' = "refunded"))
  /\ (forall e body, c = ProcessPayment e body ->
        ok (processPayment cfg e body s).1 = false -> s' = s).
Proof.
  intros Hs. cbv zeta.
  destruct (perform_store cfg c s)
    as [->|[(e & body & -> & Hok & ->)
           |[(e & j & body & t & u & -> & Ht & Hn & Hu & ->)|[-> ->]]]].
  - repeat split; auto.
    + intros i t' H1 H2. congruence.
    + intros _ i t t' H1 H2. left. congruence.
  - repeat split.
    + apply map_Forall_insert_2; [now left | exact Hs].
    + intros i t' Hi. destruct (decide (uuid e = i)) as [<-|Hne].
      * rewrite lookup_insert_eq. now intros [= <-].
      * rewrite lookup_insert_ne by exact Hne. congruence.
    + cbn [fresh_uuid]. intros Hf i t t' Hi.
      destruct (decide (uuid e = i)) as [<-|Hne].
      * congruence.
      * rewrite lookup_insert_ne by exact Hne. left. congruence.
    + intros e' body' [= -> ->] Hfail. congruence.
  - assert (status t = "succeeded") as Hsucc.
    { destruct (Hs j t Ht) as [H|H]; [exact H | contradiction]. }
    assert (status u = "refunded") as Hru by (now destruct Hu as [->| ->]).
    repeat split.
    + apply map_Forall_insert_2; [now right | exact Hs].
    + intros i t' Hi. destruct (decide (j = i)) as [<-|Hne].
      * congruence.
      * rewrite lookup_insert_ne by exact Hne. congruence.
    + intros _ i v v' Hi. destruct (decide (j = i)) as [<-|Hne].
      * rewrite lookup_insert_eq. intros [= <-]. right.
        split; [congruence | exact Hru].
      * rewrite lookup_insert_ne by exact Hne. left. congruence.
    + discriminate.
  - repeat split.
    + apply map_Forall_empty.
    + intros i t' _. now rewrite lookup_empty.
    + intros _ i t t' _. now rewrite lookup_empty.
    + discriminate.
Qed.

Lemma status_invariant_witness :
  let cfg := with_rates 0 0 DEFAULT_CONFIG in
  let c := ProcessPayment sample_env
             (card_payment (JNum 100) (JStr "USD") "4111111111111111") in
  let s' := (perform cfg c ∅).2 in
  store_ok s'
  /\ (forall i t', (∅ : gmap string transaction) !! i = None ->
        s' !! i = Some t' -> status t' = "succeeded")
  /\ (fresh_uuid c ∅ ->
      forall i t t', (∅ : gmap string transaction) !! i = Some t ->
        s' !! i = Some t' ->
        status t' = status t
        \/ (status t = "succeeded" /\ status t' = "refunded"))
  /\ (forall e body, c = ProcessPayment e body ->
        ok (processPayment cfg e body ∅).1 = false -> s' = ∅).
Proof.
  apply (status_invariant (with_rates 0 0 DEFAULT_CONFIG)
           (ProcessPayment sample_env
              (card_payment (JNum 100) (JStr "USD") "4111111111111111")) ∅).
  apply map_Forall_empty.
Defined.

(** The invariant holds in every store the service can reach from the
    empty one, fresh identifiers or not. *)
Lemma store_ok_run (cfg : config) (calls : list call)
    (s : gmap string transaction) :
  store_ok s -> store_ok (run cfg calls s).
Proof.
  revert s. induction calls as [|c calls IH]; intros s Hs; [exact Hs|].
  cbn [run fold_left]. apply IH.
  destruct (perform_store cfg c s)
    as [->|[(e & body & -> & Hok & ->)
           |[(e & j & body & t & u & -> & Ht & Hn & Hu & ->)|[-> ->]]]].
  - exact Hs.
  - apply map_Forall_insert_2; [now left | exact Hs].
  - apply map_Forall_insert_2; [|exact Hs]. right. now destruct Hu as [->| ->].
  - apply map_Forall_empty.
Qed.

(** ** The branches of process payment *)

(** The answers of the test-card block. *)
Lemma test_card_outcome_codes (cfg : config) (cardDetails : jsval) (r : response) :
  test_card_outcome cfg cardDetails = Some r ->
  ok r = false
  /\ In (http_status r, error_code r)
        [(400%N, Some "invalid_card_details"); (402%N, Some "card_declined");
         (500%N, Some "processing_error"); (400%N, Some "invalid_cvv");
         (400%N, Some "expired_card"); (402%N, Some "insufficient_funds");
         (400%N, Some "invalid_card"); (500%N, Some "server_error")].
Proof.
  unfold test_card_outcome. repeat case_match; intros [= <-]; answer;
    (split; [reflexivity|]); cbn [In]; tauto.
Qed.

(** [processPayment], branch by branch. *)
Lemma processPayment_cases (cfg : config) (e : env) (body : jsval)
    (s : gmap string transaction) :
  (no_body body = true /\ processPayment cfg e body s = (server_error, s))
  \/ (required_fields body = false
      /\ processPayment cfg e body s
         = (fail 400 "invalid_request" missing_fields_message, s))
  \/ (required_fields body = true
      /\ includes (availablePaymentMethods cfg) (prop "paymentMethod" body) = false
      /\ processPayment cfg e body s
         = (fail 400 "invalid_payment_method" (invalid_method_message cfg), s))
  \/ (required_fields body = true
      /\ includes (availablePaymentMethods cfg) (prop "paymentMethod" body) = true
      /\ Qltb (random_error e) (errorRate cfg) = true
      /\ processPayment cfg e body s
         = (fail 500 "processing_error"
              "An error occurred while processing the payment. Please try again.",
            s))
  \/ (admitted cfg e body = true
      /\ exists r, card_block cfg body = Some r
                   /\ processPayment cfg e body s = (r, s))
  \/ (admitted cfg e body = true /\ card_block cfg body = None
      /\ declined cfg e body = true
      /\ processPayment cfg e body s
         = (fail 402 "payment_declined"
              "The payment was declined. Please try another payment method.", s))
  \/ (admitted cfg e body = true /\ card_block cfg body = None
      /\ declined cfg e body = false
      /\ processPayment cfg e body s
         = (created e body, <[uuid e := new_transaction e body]> s)).
Proof.
  unfold processPayment, admitted, required_fields, card_block, declined, created.
  destruct (no_body body); [left; auto|]. right.
  destruct (truthy (prop "paymentMethod" body)); [|left; auto].
  destruct (truthy (prop "amount" body)); [|left; auto].
  destruct (truthy (prop "currency" body)); [|left; auto].
  right. cbn [negb orb andb].
  destruct (includes _ _); [|left; auto].
  right. cbn [negb andb].
  destruct (Qltb (random_error e) _); [left; auto|].
  right. cbn [negb].
  destruct (if strict_eq_str _ _ then _ else _) as [r|].
  - left. eauto.
  - right. destruct (_ && _); [left|right]; auto.
Qed.

Lemma no_body_required (body : jsval) :
  no_body body = true -> required_fields body = false.
Proof. now destruct body. Qed.

Lemma includes_true (l : list string) (v : jsval) :
  includes l v = true <-> exists m, v = JStr m /\ In m l.
Proof.
  unfold includes. rewrite existsb_exists. split.
  - intros (m & Hin & Heq). apply strict_eq_str_true in Heq. eauto.
  - intros (m & -> & Hin). exists m. split; [exact Hin|].
    now apply strict_eq_str_true.
Qed.

Lemma card_block_codes (cfg : config) (body : jsval) (r : response) :
  card_block cfg body = Some r ->
  prop "paymentMethod" body = JStr "credit_card"
  /\ test_card_outcome cfg (prop "cardDetails" body) = Some r.
Proof.
  unfold card_block.
  destruct (strict_eq_str _ _) eqn:E; [|discriminate].
  apply strict_eq_str_true in E. auto.
Qed.

(** Past the validations and the error roll, the answer is that of the
    test-card block, else that of the decline roll, else the creation. *)
Lemma processPayment_admitted (cfg : config) (e : env) (body : jsval)
    (s : gmap string transaction) :
  admitted cfg e body = true ->
  processPayment cfg e body s
  = match card_block cfg body with
    | Some r => (r, s)
    | None =>
      if declined cfg e body then
        (fail 402 "payment_declined"
           "The payment was declined. Please try another payment method.", s)
      else (created e body, <[uuid e := new_transaction e body]> s)
    end.
Proof.
  unfold admitted, required_fields. rewrite !andb_true_iff, negb_true_iff.
  intros [[[[Hp Ha] Hc] Hi] He].
  unfold processPayment.
  rewrite (truthy_prop_body _ _ Hp), Hp, Ha, Hc, Hi, He. reflexivity.
Qed.

(** ** Process payment: the method check *)

(** X1. Process payment answers [invalid_payment_method] exactly when the
    three required fields are truthy and the method is not one of the
    configured methods; the answer is then HTTP 400, its message lists the
    configured methods, and nothing is stored. *)
Theorem unsupported_method_rejected (cfg : config) (e : env) (body : jsval)
    (s : gmap string transaction) :
  let unsupported :=
    required_fields body = true
    /\ includes (availablePaymentMethods cfg) (prop "paymentMethod" body) = false in
  (error_code (processPayment cfg e body s).1 = Some "invalid_payment_method"
   <-> unsupported)
  /\ (unsupported ->
      processPayment cfg e body s
      = (fail 400 "invalid_payment_method"
           ("Invalid payment method. Supported methods: "
            ++ String.concat ", " (availablePaymentMethods cfg)), s)).
Proof.
  cbv zeta.
  destruct (processPayment_cases cfg e body s)
    as [[H0 ->]|[[H1 ->]|[(H1 & H2 & ->)|[(H1 & H2 & H3 & ->)|[(H1 & r & H2 & ->)
       |[(H1 & H2 & H3 & ->)|(H1 & H2 & H3 & ->)]]]]]];
    answer.
  - apply no_body_required in H0.
    split; [split; [discriminate | intros []; congruence] | intros []; congruence].
  - split; [split; [discriminate | intros []; congruence] | intros []; congruence].
  - split; [tauto | reflexivity].
  - split; [split; [discriminate | intros []; congruence] | intros []; congruence].
  - unfold admitted in H1. rewrite !andb_true_iff in H1.
    destruct H1 as [[_ Hi] _].
    split; [split; [|intros []; congruence] | intros []; congruence].
    apply card_block_codes in H2 as [_ H2].
    apply test_card_outcome_codes in H2; split_answers H2; congruence.
  - unfold admitted in H1. rewrite !andb_true_iff in H1.
    destruct H1 as [[_ Hi] _].
    split; [split; [discriminate | intros []; congruence] | intros []; congruence].
  - unfold admitted in H1. rewrite !andb_true_iff in H1.
    destruct H1 as [[_ Hi] _]. unfold created. answer.
    split; [split; [discriminate | intros []; congruence] | intros []; congruence].
Qed.

(** ** Process payment: the error roll *)

(** X2. When the required fields are truthy, the method is supported and the
    error draw is below the error rate, process payment answers 500
    [processing_error] and stores nothing, whatever the card: the
    guaranteed-success card and the error cards are not looked at. *)
Theorem error_roll_fires (cfg : config) (e : env) (body : jsval)
    (s : gmap string transaction) :
  required_fields body = true ->
  includes (availablePaymentMethods cfg) (prop "paymentMethod" body) = true ->
  (random_error e < errorRate cfg)%Q ->
  processPayment cfg e body s
  = (fail 500 "processing_error"
       "An error occurred while processing the payment. Please try again.", s).
Proof.
  unfold required_fields. rewrite !andb_true_iff.
  intros [[Hp Ha] Hc] Hi He. apply Qltb_true in He.
  unfold processPayment.
  rewrite (truthy_prop_body _ _ Hp), Hp, Ha, Hc, Hi, He. reflexivity.
Qed.

Lemma error_roll_fires_witness :
  processPayment DEFAULT_CONFIG flaky_env
    (card_payment (JNum 100) (JStr "USD") "4111111111111111") ∅
  = (fail 500 "processing_error"
       "An error occurred while processing the payment. Please try again.", ∅).
Proof.
  apply (error_roll_fires DEFAULT_CONFIG flaky_env
           (card_payment (JNum 100) (JStr "USD") "4111111111111111") ∅);
    reflexivity.
Defined.

(** ** Process payment: card details *)

(** X3. For a [credit_card] payment that passes the validations and the
    error roll, the answer is [invalid_card_details] exactly when the card
    details or their number are falsy (absent, null, empty string, 0); it is
    then HTTP 400 and nothing is stored. *)
Theorem card_details_required (cfg : config) (e : env) (body : jsval)
    (s : gmap string transaction) :
  admitted cfg e body = true ->
  prop "paymentMethod" body = JStr "credit_card" ->
  let missing :=
    truthy (prop "cardDetails" body) = false
    \/ truthy (prop "number" (prop "cardDetails" body)) = false in
  (error_code (processPayment cfg e body s).1 = Some "invalid_card_details"
   <-> missing)
  /\ (missing ->
      processPayment cfg e body s
      = (fail 400 "invalid_card_details"
           "Card details are required for credit card payments", s)).
Proof.
  intros Ha Hm. cbv zeta. rewrite (processPayment_admitted _ _ _ _ Ha).
  unfold card_block. rewrite Hm.
  cbn [strict_eq_str String.eqb Ascii.eqb Bool.eqb].
  destruct (truthy (prop "cardDetails" body)) eqn:Hcd;
    [destruct (truthy (prop "number" (prop "cardDetails" body))) eqn:Hn|].
  - split; [|intros [|]; discriminate].
    split; [|intros [|]; discriminate].
    destruct (test_card_outcome cfg (prop "cardDetails" body)) as [r|] eqn:Ht.
    + answer. intros Hr. revert Ht. unfold test_card_outcome.
      rewrite Hcd, Hn. cbn [negb orb].
      repeat case_match; intros [= <-]; discriminate Hr.
    + destruct (declined cfg e body); unfold created; answer; intros [=].
  - unfold test_card_outcome. rewrite Hcd, Hn. cbn [negb orb]. answer.
    split; [split; auto | reflexivity].
  - unfold test_card_outcome. rewrite Hcd. cbn [negb orb]. answer.
    split; [split; auto | reflexivity].
Qed.

Lemma card_details_required_witness :
  let body := JObj [("paymentMethod", JStr "credit_card"); ("amount", JNum 5);
                    ("currency", JStr "EUR")] in
  (error_code (processPayment DEFAULT_CONFIG sample_env body ∅).1
   = Some "invalid_card_details"
   <-> (truthy (prop "cardDetails" body) = false
        \/ truthy (prop "number" (prop "cardDetails" body)) = false))
  /\ (truthy (prop "cardDetails" body) = false
      \/ truthy (prop "number" (prop "cardDetails" body)) = false ->
      processPayment DEFAULT_CONFIG sample_env body ∅
      = (fail 400 "invalid_card_details"
           "Card details are required for credit card payments", ∅)).
Proof.
  apply (card_details_required DEFAULT_CONFIG sample_env
           (JObj [("paymentMethod", JStr "credit_card"); ("amount", JNum 5);
                  ("currency", JStr "EUR")]) ∅);
    reflexivity.
Defined.

(** X4. A [credit_card] payment that passes the validations and the error
    roll and whose card number is truthy but not a string (a JSON number, for
    one) makes the handler throw on [replace]: the answer is the 500
    [server_error] of the error-handling middleware, and nothing is stored. *)
Theorem card_number_not_a_string (cfg : config) (e : env) (body : jsval)
    (s : gmap string transaction) :
  admitted cfg e body = true ->
  prop "paymentMethod" body = JStr "credit_card" ->
  truthy (prop "number" (prop "cardDetails" body)) = true ->
  (forall text, prop "number" (prop "cardDetails" body) <> JStr text) ->
  processPayment cfg e body s
  = (fail 500 "server_error" "An unexpected error occurred", s).
Proof.
  intros Ha Hm Hn Hs. rewrite (processPayment_admitted _ _ _ _ Ha).
  unfold card_block. rewrite Hm.
  cbn [strict_eq_str String.eqb Ascii.eqb Bool.eqb].
  unfold test_card_outcome. rewrite Hn.
  assert (truthy (prop "cardDetails" body) = true) as ->.
  { destruct (prop "cardDetails" body); try reflexivity; discriminate Hn. }
  cbn [negb orb].
  destruct (prop "number" (prop "cardDetails" body)); try reflexivity.
  now destruct (Hs s0).
Qed.

Lemma card_number_not_a_string_witness :
  processPayment (with_rates 0 0 DEFAULT_CONFIG) sample_env
    (JObj [("paymentMethod", JStr "credit_card"); ("amount", JNum 100);
           ("currency", JStr "USD");
           ("cardDetails", JObj [("number", JNum 4111111111111111)])]) ∅
  = (fail 500 "server_error" "An unexpected error occurred", ∅).
Proof.
  apply (card_number_not_a_string (with_rates 0 0 DEFAULT_CONFIG) sample_env
           (JObj [("paymentMethod", JStr "credit_card"); ("amount", JNum 100);
                  ("currency", JStr "USD");
                  ("cardDetails", JObj [("number", JNum 4111111111111111)])]) ∅);
    try reflexivity.
  intros text. discriminate.
Defined.

(** X5. The card answers of the test-card block ([invalid_card_details],
    [card_declined], [invalid_cvv], [expired_card], [insufficient_funds],
    [invalid_card]) are given to [credit_card] payments only: for every
    other method the card details are not looked at, whatever card number
    they hold. *)
Theorem card_codes_only_for_credit_card (cfg : config) (e : env) (body : jsval)
    (s : gmap string transaction) (c : string) :
  prop "paymentMethod" body <> JStr "credit_card" ->
  In c card_only_codes ->
  error_code (processPayment cfg e body s).1 <> Some c.
Proof.
  intros Hm Hc.
  destruct (processPayment_cases cfg e body s)
    as [[H0 ->]|[[H1 ->]|[(H1 & H2 & ->)|[(H1 & H2 & H3 & ->)|[(H1 & r & H2 & ->)
       |[(H1 & H2 & H3 & ->)|(H1 & H2 & H3 & ->)]]]]]];
    unfold created; answer.
  5: { apply card_block_codes in H2 as [H2 _]. contradiction. }
  all: intros [= <-]; cbn [card_only_codes In] in Hc;
    repeat (destruct Hc as [Hc|Hc]; [discriminate Hc|]); contradiction.
Qed.

Lemma card_codes_only_for_credit_card_witness :
  error_code
    (processPayment (with_rates 0 0 DEFAULT_CONFIG) sample_env
       (JObj [("paymentMethod", JStr "paypal"); ("amount", JNum 100);
              ("currency", JStr "USD");
              ("cardDetails", JObj [("number", JStr "4000000000000002")])]) ∅).1
  <> Some "card_declined".
Proof.
  apply (card_codes_only_for_credit_card (with_rates 0 0 DEFAULT_CONFIG)
           sample_env
           (JObj [("paymentMethod", JStr "paypal"); ("amount", JNum 100);
                  ("currency", JStr "USD");
                  ("cardDetails", JObj [("number", JStr "4000000000000002")])])
           ∅ "card_declined").
  - discriminate.
  - cbn [card_only_codes In]. auto.
Defined.


Lemma exact_success_card_never_declined_witness :
  error_code
    (processPayment (with_rates 0 1 DEFAULT_CONFIG) sample_env
       (card_payment (JNum 100) (JStr "USD") "4111111111111111") ∅).1
  <> Some "payment_declined".
Proof.
  apply (exact_success_card_never_declined (with_rates 0 1 DEFAULT_CONFIG)
           sample_env
           (card_payment (JNum 100) (JStr "USD") "4111111111111111") ∅).
  reflexivity.
Defined.

(** ** Process payment: the decline roll *)

(** X8. A payment that passes the validations and the error roll, that the
    test-card block lets through (its method is not [credit_card], or its
    card is none of the error cards), whose card number as received is not
    the guaranteed-success number, and whose decline draw is below the
    decline rate, is answered 402 [payment_declined]; nothing is stored. *)
Theorem decline_roll_fires (cfg : config) (e : env) (body : jsval)
    (s : gmap string transaction) :
  admitted cfg e body = true ->
  card_block cfg body = None ->
  prop "number" (prop "cardDetails" body) <> JStr (success (testCards cfg)) ->
  (random_decline e < declineRate cfg)%Q ->
  processPayment cfg e body s
  = (fail 402 "payment_declined"
       "The payment was declined. Please try another payment method.", s).
Proof.
  intros Ha Hb Hn Hd. rewrite (processPayment_admitted _ _ _ _ Ha), Hb.
  unfold declined. apply Qltb_true in Hd. rewrite Hd.
  destruct (strict_eq_str _ _) eqn:E; [|reflexivity].
  apply strict_eq_str_true in E. contradiction.
Qed.

Lemma decline_roll_fires_witness :
  processPayment DEFAULT_CONFIG sample_env
    (JObj [("paymentMethod", JStr "paypal"); ("amount", JNum 100);
           ("currency", JStr "USD")]) ∅
  = (fail 402 "payment_declined"
       "The payment was declined. Please try another payment method.", ∅).
Proof.
  apply (decline_roll_fires DEFAULT_CONFIG sample_env
           (JObj [("paymentMethod", JStr "paypal"); ("amount", JNum 100);
                  ("currency", JStr "USD")]) ∅);
    try reflexivity; discriminate.
Defined.

(** X9. With a decline rate of 0 no payment is answered [payment_declined],
    whatever the method, the card and the draw. *)
Theorem no_decline_at_rate_zero (cfg : config) (e : env) (body : jsval)
    (s : gmap string transaction) :
  (declineRate cfg == 0)%Q -> (0 <= random_decline e)%Q ->
  error_code (processPayment cfg e body s).1 <> Some "payment_declined".
Proof.
  intros Hz Hd.
  destruct (processPayment_cases cfg e body s)
    as [[H0 ->]|[[H1 ->]|[(H1 & H2 & ->)|[(H1 & H2 & H3 & ->)|[(H1 & r & H2 & ->)
       |[(H1 & H2 & H3 & ->)|(H1 & H2 & H3 & ->)]]]]]];
    unfold created; answer; try discriminate.
  - apply card_block_codes in H2 as [_ H2].
    apply test_card_outcome_codes in H2; split_answers H2; congruence.
  - unfold declined in H3. rewrite (no_roll_at_zero _ _ Hz Hd) in H3.
    discriminate H3.
Qed.

Lemma no_decline_at_rate_zero_witness :
  error_code
    (processPayment (with_rates 0 0 DEFAULT_CONFIG) sample_env
       (card_payment (JNum 100) (JStr "USD") "5555 5555 5555 4444") ∅).1
  <> Some "payment_declined".
Proof.
  apply (no_decline_at_rate_zero (with_rates 0 0 DEFAULT_CONFIG) sample_env
           (card_payment (JNum 100) (JStr "USD") "5555 5555 5555 4444") ∅);
    [reflexivity | discriminate].
Defined.

(** ** Process payment: the methods without a card *)

(** X10. A payment by a supported method other than [credit_card], with a
    truthy amount and currency, succeeds whenever neither roll fires: it
    needs no card details, and a card number it carries, an error card
    included, is not looked at. The answer is HTTP 201 and the transaction
    is stored under the generated identifier. *)
Theorem cardless_method_succeeds (cfg : config) (e : env) (body : jsval)
    (method : string) (s : gmap string transaction) :
  required_fields body = true ->
  prop "paymentMethod" body = JStr method ->
  method <> "credit_card" ->
  In method (availablePaymentMethods cfg) ->
  (errorRate cfg <= random_error e)%Q ->
  (declineRate cfg <= random_decline e)%Q ->
  processPayment cfg e body s
  = (created e body, <[uuid e := new_transaction e body]> s)
  /\ paymentMethod (new_transaction e body) = JStr method.
Proof.
  intros Hr Hm Hne Hin He Hd. split; [|exact Hm].
  apply Qltb_false in He, Hd.
  assert (admitted cfg e body = true) as Ha.
  { unfold admitted. rewrite Hr, Hm, (includes_In _ _ Hin), He. reflexivity. }
  rewrite (processPayment_admitted _ _ _ _ Ha).
  unfold card_block, declined. rewrite Hm, Hd.
  assert (strict_eq_str (JStr method) "credit_card" = false) as ->.
  { apply not_true_iff_false. intros E. apply strict_eq_str_true in E.
    congruence. }
  reflexivity.
Qed.

Lemma cardless_method_succeeds_witness :
  let body := JObj [("paymentMethod", JStr "apple_pay"); ("amount", JNum 100);
                    ("currency", JStr "USD");
                    ("cardDetails", JObj [("number", JStr "4000000000000002")])] in
  processPayment (with_rates 0 0 DEFAULT_CONFIG) sample_env body ∅
  = (created sample_env body, <[uuid sample_env := new_transaction sample_env body]> ∅)
  /\ paymentMethod (new_transaction sample_env body) = JStr "apple_pay".
Proof.
  apply (cardless_method_succeeds (with_rates 0 0 DEFAULT_CONFIG) sample_env
           (JObj [("paymentMethod", JStr "apple_pay"); ("amount", JNum 100);
                  ("currency", JStr "USD");
                  ("cardDetails", JObj [("number", JStr "4000000000000002")])])
           "apple_pay" ∅);
    try reflexivity; try discriminate.
  cbn [In availablePaymentMethods with_rates DEFAULT_CONFIG]. auto.
Defined.

(** ** Process payment: every answer *)

(** X11. Every answer of process payment is either the 201 answer of a
    created transaction, the store then gaining that transaction under the
    generated identifier, or an error answer with [success: false], one of
    eleven pairs of HTTP status and code, the store then being left as it
    was. *)
Theorem processPayment_answers (cfg : config) (e : env) (body : jsval)
    (s : gmap string transaction) :
  processPayment cfg e body s
  = (created e body, <[uuid e := new_transaction e body]> s)
  \/ (ok (processPayment cfg e body s).1 = false
      /\ (processPayment cfg e body s).2 = s
      /\ In (http_status (processPayment cfg e body s).1,
             error_code (processPayment cfg e body s).1)
            [(400%N, Some "invalid_request");
             (400%N, Some "invalid_payment_method");
             (500%N, Some "processing_error");
             (400%N, Some "invalid_card_details");
             (402%N, Some "card_declined");
             (400%N, Some "invalid_cvv");
             (400%N, Some "expired_card");
             (402%N, Some "insufficient_funds");
             (400%N, Some "invalid_card");
             (500%N, Some "server_error");
             (402%N, Some "payment_declined")]).
Proof.
  destruct (processPayment_cases cfg e body s)
    as [[H0 ->]|[[H1 ->]|[(H1 & H2 & ->)|[(H1 & H2 & H3 & ->)|[(H1 & r & H2 & ->)
       |[(H1 & H2 & H3 & ->)|(H1 & H2 & H3 & ->)]]]]]];
    [right|right|right|right|right|right|left; reflexivity]; answer;
    (split; [|split; [reflexivity|]]); try reflexivity; cbn [In]; try tauto.
  - apply card_block_codes in H2 as [_ H2].
    now apply test_card_outcome_codes in H2.
  - apply card_block_codes in H2 as [_ H2].
    apply test_card_outcome_codes in H2; split_answers H2;
      match goal with
      | Ha : _ = http_status r, Hb : _ = error_code r |- _ =>
        rewrite <- Ha, <- Hb
      end; tauto.
Qed.

(** ** What a call leaves alone *)

(** The store after a payment: as it was, or with the new transaction. *)
Lemma processPayment_store (cfg : config) (e : env) (body : jsval)
    (s : gmap string transaction) :
  (ok (processPayment cfg e body s).1 = false
   /\ (processPayment cfg e body s).2 = s)
  \/ processPayment cfg e body s
     = (created e body, <[uuid e := new_transaction e body]> s).
Proof.
  destruct (ok (processPayment cfg e body s).1) eqn:Hok.
  - right. now apply processPayment_ok_inv.
  - left. split; [reflexivity|]. now apply processPayment_failed_store.
Qed.

(** X12. A payment changes the store at most under the identifier it
    generates, and a refund at most under the identifier it is given: every
    other transaction is read back unchanged. *)
Theorem other_transactions_untouched (cfg : config) (e : env) (i j : string)
    (body : jsval) (s : gmap string transaction) :
  (j <> uuid e -> (processPayment cfg e body s).2 !! j = s !! j)
  /\ (j <> i -> (refundPayment cfg e i body s).2 !! j = s !! j)
  /\ (getPayment i s).2 = s.
Proof.
  repeat split.
  - intros Hj.
    destruct (processPayment_store cfg e body s) as [[_ ->]| ->];
      [reflexivity|].
    cbn [snd]. now rewrite lookup_insert_ne.
  - intros Hj.
    destruct (refundPayment_cases cfg e i body s)
      as [[_ ->]|[(t & _ & _ & ->)|[(t & _ & _ & _ & ->)
         |[(t & _ & _ & _ & ->)|(t & _ & _ & _ & _ & ->)]]]];
      cbn [snd]; try reflexivity.
    all: now rewrite lookup_insert_ne.
  - unfold getPayment. now destruct (s !! i).
Qed.

(** ** Refund, then get *)

(** X13. After a successful refund, get payment on the same identifier
    answers 200 with status [refunded] and with the payment method, amount,
    currency, creation time and metadata the transaction had before: a
    refund changes none of them. *)
Theorem get_after_refund (cfg : config) (e : env) (i : string) (body : jsval)
    (t : transaction) (s : gmap string transaction) :
  s !! i = Some t ->
  ok (refundPayment cfg e i body s).1 = true ->
  getPayment i (refundPayment cfg e i body s).2
  = ({| http_status := 200; ok := true;
        data := DetailsData (id t) (paymentMethod t) (amount t) (currency t)
                            "refunded" (createdAt t) (metadata t) |},
     (refundPayment cfg e i body s).2).
Proof.
  intros Ht Hok.
  destruct (refundPayment_cases cfg e i body s)
    as [[_ H]|[(u & _ & _ & H)|[(u & _ & _ & _ & H)
       |[(u & Hu & _ & _ & H)|(u & _ & _ & _ & _ & H)]]]];
    rewrite H in Hok |- *; try discriminate Hok.
  rewrite Ht in Hu. injection Hu as <-. cbn [snd].
  unfold getPayment. rewrite lookup_insert_eq. reflexivity.
Qed.

Lemma get_after_refund_witness :
  let t := new_transaction sample_env
             (card_payment (JNum 100) (JStr "USD") "4111111111111111") in
  let s : gmap string transaction := {[ "tx-1" := t ]} in
  getPayment "tx-1"
    (refundPayment (with_rates 0 0 DEFAULT_CONFIG) sample_env "tx-1" (JObj []) s).2
  = ({| http_status := 200; ok := true;
        data := DetailsData (id t) (paymentMethod t) (amount t) (currency t)
                            "refunded" (createdAt t) (metadata t) |},
     (refundPayment (with_rates 0 0 DEFAULT_CONFIG) sample_env "tx-1" (JObj []) s).2).
Proof.
  cbv zeta.
  apply (get_after_refund (with_rates 0 0 DEFAULT_CONFIG) sample_env "tx-1"
           (JObj [])).
  - apply lookup_singleton_eq.
  - unfold refundPayment. rewrite lookup_singleton_eq. reflexivity.
Defined.

(** ** Payment, then refund *)

(** X14. After a successful payment, a refund of the returned identifier
    whose request carries a body that supplies no (or a falsy) amount, and
    whose error roll does not fire, is answered 200 with status [refunded], a
    refund amount equal to the amount of the payment, and the reason
    supplied, [customer_request] when there is none. *)
Theorem full_refund_of_new_payment (cfg : config) (e e' : env)
    (body body' : jsval) (s : gmap string transaction) :
  ok (processPayment cfg e body s).1 = true ->
  no_body body' = false ->
  truthy (prop "amount" body') = false ->
  (errorRate cfg <= random_error e')%Q ->
  (refundPayment cfg e' (uuid e) body' (processPayment cfg e body s).2).1
  = {| http_status := 200; ok := true;
       data := RefundData (uuid e) "refunded" (prop "amount" body) (now e')
                 (js_or (prop "reason" body') (JStr "customer_request")) |}
  /\ truthy (prop "amount" body) = true.
Proof.
  intros Hok Hb Ha He. apply Qltb_false in He.
  assert (truthy (prop "amount" body) = true) as Hamt.
  { destruct (processPayment_cases cfg e body s)
      as [[_ H]|[[H1 H]|[(H1 & _ & H)|[(H1 & _ & _ & H)|[(H1 & _)
         |[(H1 & _)|(H1 & _)]]]]]];
      try (rewrite H in Hok; discriminate Hok);
      try (unfold admitted in H1; rewrite !andb_true_iff in H1;
           destruct H1 as [[H1 _] _]);
      unfold required_fields in H1; rewrite !andb_true_iff in H1; tauto. }
  split; [|exact Hamt].
  rewrite (processPayment_ok_inv _ _ _ _ Hok). cbn [snd].
  unfold refundPayment. rewrite lookup_insert_eq.
  cbn [status new_transaction String.eqb Ascii.eqb Bool.eqb].
  rewrite He, Hb. cbv iota. cbn [fst id amount refunded new_transaction].
  unfold js_or at 1. rewrite Ha. reflexivity.
Qed.

Lemma full_refund_of_new_payment_witness :
  let cfg := with_rates 0 0 DEFAULT_CONFIG in
  let body := card_payment (JNum 100) (JStr "USD") "4111111111111111" in
  (refundPayment cfg flaky_env (uuid sample_env) (JObj [])
     (processPayment cfg sample_env body ∅).2).1
  = {| http_status := 200; ok := true;
       data := RefundData (uuid sample_env) "refunded" (prop "amount" body)
                 (now flaky_env)
                 (js_or (prop "reason" (JObj [])) (JStr "customer_request")) |}
  /\ truthy (prop "amount" body) = true.
Proof.
  apply (full_refund_of_new_payment (with_rates 0 0 DEFAULT_CONFIG) sample_env
           flaky_env
           (card_payment (JNum 100) (JStr "USD") "4111111111111111")
           (JObj []) ∅).
  - reflexivity.
  - reflexivity.
  - reflexivity.
  - discriminate.
Defined.

(** ** A failed refund can be tried again *)

(** X15. When the error roll of a refund fires on a transaction that is
    not refunded, the answer is 500 [refund_processing_error] and the
    transaction stays refundable: the next refund of it whose request
    carries a body and whose roll does not fire is answered 200 and leaves it
    [refunded]. *)
Theorem refund_retry_succeeds (cfg : config) (e e' : env) (i : string)
    (body body' : jsval) (t : transaction) (s : gmap string transaction) :
  s !! i = Some t ->
  status t <> "refunded" ->
  (random_error e < errorRate cfg)%Q ->
  no_body body' = false ->
  (errorRate cfg <= random_error e')%Q ->
  refundPayment cfg e i body s
  = (fail 500 "refund_processing_error"
       "An error occurred while processing the refund. Please try again.", s)
  /\ let s1 := (refundPayment cfg e i body s).2 in
     http_status (refundPayment cfg e' i body' s1).1 = 200%N
     /\ ok (refundPayment cfg e' i body' s1).1 = true
     /\ status <$> (refundPayment cfg e' i body' s1).2 !! i = Some "refunded".
Proof.
  intros Ht Hs He Hb He'. apply Qltb_true in He. apply Qltb_false in He'.
  apply String.eqb_neq in Hs. cbv zeta.
  assert (refundPayment cfg e i body s
          = (fail 500 "refund_processing_error"
               "An error occurred while processing the refund. Please try again.",
             s)) as ->.
  { unfold refundPayment. now rewrite Ht, Hs, He. }
  split; [reflexivity|]. cbn [snd].
  unfold refundPayment. rewrite Ht, Hs, He', Hb. cbn [fst snd http_status ok].
  rewrite lookup_insert_eq. repeat split.
Qed.

Lemma refund_retry_succeeds_witness :
  let t := new_transaction sample_env
             (card_payment (JNum 100) (JStr "USD") "4111111111111111") in
  let s : gmap string transaction := {[ "tx-1" := t ]} in
  refundPayment DEFAULT_CONFIG flaky_env "tx-1" (JObj []) s
  = (fail 500 "refund_processing_error"
       "An error occurred while processing the refund. Please try again.", s)
  /\ let s1 := (refundPayment DEFAULT_CONFIG flaky_env "tx-1" (JObj []) s).2 in
     http_status (refundPayment DEFAULT_CONFIG sample_env "tx-1" (JObj []) s1).1
     = 200%N
     /\ ok (refundPayment DEFAULT_CONFIG sample_env "tx-1" (JObj []) s1).1 = true
     /\ status <$> (refundPayment DEFAULT_CONFIG sample_env "tx-1" (JObj []) s1).2
                     !! "tx-1" = Some "refunded".
Proof.
  cbv zeta.
  apply (refund_retry_succeeds DEFAULT_CONFIG flaky_env sample_env "tx-1"
           (JObj []) (JObj [])
           (new_transaction sample_env
              (card_payment (JNum 100) (JStr "USD") "4111111111111111"))).
  - apply lookup_singleton_eq.
  - discriminate.
  - reflexivity.
  - reflexivity.
  - discriminate.
Defined.

(** ** What every reachable store satisfies *)

Lemma processPayment_ok_admitted (cfg : config) (e : env) (body : jsval)
    (s : gmap string transaction) :
  ok (processPayment cfg e body s).1 = true -> admitted cfg e body = true.
Proof.
  intros Hok.
  destruct (processPayment_cases cfg e body s)
    as [[_ H]|[[_ H]|[(_ & _ & H)|[(_ & _ & _ & H)
       |[(H1 & _)|[(H1 & _)|(H1 & _)]]]]]];
    try exact H1; rewrite H in Hok; discriminate Hok.
Qed.

(** A property of stored transactions that new transactions have and
    refunds, completed or interrupted, keep holds in every store the calls
    lead to. *)
Lemma run_invariant (cfg : config) (P : string -> transaction -> Prop) :
  (forall e body, admitted cfg e body = true ->
                  P (uuid e) (new_transaction e body)) ->
  (forall e body i t, P i t -> status t <> "refunded" ->
                      P i (refunded e body t)) ->
  (forall e i t, P i t -> status t <> "refunded" -> P i (interrupted e t)) ->
  forall calls s, map_Forall P s -> map_Forall P (run cfg calls s).
Proof.
  intros Hnew Href Hint calls.
  induction calls as [|c calls IH]; intros s Hs; [exact Hs|].
  cbn [run fold_left]. apply IH.
  destruct (perform_store cfg c s)
    as [->|[(e & body & -> & Hok & ->)
           |[(e & j & body & t & u & -> & Ht & Hn & Hu & ->)|[-> ->]]]].
  - exact Hs.
  - apply map_Forall_insert_2; [|exact Hs].
    apply Hnew. now apply processPayment_ok_admitted in Hok.
  - apply map_Forall_insert_2; [|exact Hs].
    destruct Hu as [->| ->];
      [apply Href | apply Hint]; solve [now apply Hs | exact Hn].
  - apply map_Forall_empty.
Qed.

Lemma new_transaction_validated (cfg : config) (e : env) (body : jsval) :
  admitted cfg e body = true -> validated cfg (new_transaction e body).
Proof.
  unfold admitted, required_fields. rewrite !andb_true_iff.
  intros [[[[Hp Ha] Hc] Hi] _]. apply includes_true in Hi.
  repeat split; assumption.
Qed.

(** X16. In every store the calls on a service lead to from the empty
    one, each transaction is stored under its own identifier, so that get
    payment answers with the identifier it was asked for. *)
Theorem stored_under_own_id (cfg : config) (calls : list call) (i : string) :
  let s := run cfg calls ∅ in
  ids_match s
  /\ forall t, s !! i = Some t ->
       id t = i
       /\ (getPayment i s).1
          = {| http_status := 200; ok := true;
               data := DetailsData i (paymentMethod t) (amount t) (currency t)
                         (status t) (createdAt t) (metadata t) |}.
Proof.
  cbv zeta.
  assert (ids_match (run cfg calls ∅)) as H.
  { apply run_invariant; [reflexivity | intros; assumption
                         | intros; assumption | apply map_Forall_empty]. }
  split; [exact H|]. intros t Ht. pose proof (H i t Ht) as Hid.
  cbn beta in Hid. split; [exact Hid|].
  unfold getPayment. rewrite Ht, Hid. reflexivity.
Qed.

(** X17. In every store the calls on a service lead to from the empty
    one, each transaction holds a truthy amount, a truthy currency and one of
    the configured payment methods: nothing the validations reject is ever
    stored. *)
Theorem stored_transactions_validated (cfg : config) (calls : list call) :
  map_Forall (fun _ t => validated cfg t) (run cfg calls ∅).
Proof.
  apply run_invariant.
  - intros e body Ha. now apply new_transaction_validated.
  - intros e body i t Ht _. exact Ht.
  - intros e i t Ht _. exact Ht.
  - apply map_Forall_empty.
Qed.

(** X18. In every store the calls on a service lead to from the empty
    one, a transaction with status [succeeded] has no refund field, and a
    transaction with status [refunded] has its refund time and either both a
    truthy refund amount and a truthy reason or, after a refund sent without
    a body, neither of them; no transaction has another status. *)
Theorem refund_fields_follow_status (cfg : config) (calls : list call) :
  map_Forall (fun _ t => refund_recorded t) (run cfg calls ∅).
Proof.
  assert (map_Forall (fun _ t => validated cfg t /\ refund_recorded t)
                     (run cfg calls ∅)) as H.
  { apply run_invariant.
    - intros e body Ha. split; [now apply new_transaction_validated|].
      left. repeat split.
    - intros e body i t [Hv Hr] Hn. split; [exact Hv|].
      right. split; [reflexivity|]. split; [cbn [refunded refundedAt]; eauto|].
      left. cbn [refunded refundAmount refundReason]. split.
      + eexists. split; [reflexivity|]. unfold js_or.
        destruct (truthy (prop "amount" body)) eqn:E; [exact E|apply Hv].
      + eexists. split; [reflexivity|]. unfold js_or.
        destruct (truthy (prop "reason" body)) eqn:E; [exact E|reflexivity].
    - intros e i t [Hv Hr] Hn. split; [exact Hv|].
      right. split; [reflexivity|]. split; [cbn [interrupted refundedAt]; eauto|].
      right. cbn [interrupted refundAmount refundReason].
      destruct Hr as [(_ & _ & Ha & Hr)|[Hr _]]; [auto | contradiction].
    - apply map_Forall_empty. }
  intros i t Ht. exact (proj2 (H i t Ht)).
Qed.

(** ** Only a reset removes transactions *)

(** X19. As long as the store is not reset, a stored transaction stays
    stored: payments, reads and refunds, failed or not, remove nothing. *)
Theorem only_reset_removes (cfg : config) (calls : list call) (i : string)
    (s : gmap string transaction) :
  Forall (fun c => c <> ResetTransactions) calls ->
  is_Some (s !! i) -> is_Some (run cfg calls s !! i).
Proof.
  intros Hc. revert s. induction Hc as [|c calls Hne _ IH]; intros s Hi.
  - exact Hi.
  - cbn [run fold_left]. apply IH.
    destruct (perform_store cfg c s)
      as [->|[(e & body & -> & Hok & ->)
             |[(e & j & body & t & u & -> & Ht & Hn & Hu & ->)|[-> _]]]].
    + exact Hi.
    + rewrite lookup_insert_is_Some. destruct (decide (uuid e = i)); auto.
    + rewrite lookup_insert_is_Some. destruct (decide (j = i)); auto.
    + contradiction.
Qed.

Lemma only_reset_removes_witness :
  is_Some
    (run DEFAULT_CONFIG
       [RefundPayment flaky_env "tx-1" (JObj []); GetPayment "tx-2"]
       {[ "tx-1" := new_transaction sample_env
                      (card_payment (JNum 100) (JStr "USD") "4111111111111111") ]}
     !! "tx-1").
Proof.
  apply (only_reset_removes DEFAULT_CONFIG
           [RefundPayment flaky_env "tx-1" (JObj []); GetPayment "tx-2"] "tx-1").
  - repeat constructor; discriminate.
  - rewrite lookup_singleton_eq. eauto.
Defined.

(** ** Whitespace stripping on ASCII text *)

(** On an ASCII first character, stripping decides on that character
    alone. *)
Lemma strip_whitespace_ascii_head (a : ascii) (rest : string) :
  (N_of_ascii a <? 128)%N = true ->
  strip_whitespace (String a rest)
  = if ws1 a then strip_whitespace rest else String a (strip_whitespace rest).
Proof.
  intros Ha. apply N.ltb_lt in Ha.
  assert (forall b, ws2 a b = false) as H2.
  { intros b. unfold ws2. apply andb_false_iff. left. apply N.eqb_neq. lia. }
  assert (forall b c, ws3 a b c = false) as H3.
  { intros b c. unfold ws3.
    assert ((N_of_ascii a =? 225)%N = false) as -> by (apply N.eqb_neq; lia).
    assert ((N_of_ascii a =? 226)%N = false) as -> by (apply N.eqb_neq; lia).
    assert ((N_of_ascii a =? 227)%N = false) as -> by (apply N.eqb_neq; lia).
    assert ((N_of_ascii a =? 239)%N = false) as -> by (apply N.eqb_neq; lia).
    reflexivity. }
  cbn [strip_whitespace]. destruct (ws1 a); [reflexivity|].
  destruct rest as [|b [|c rest]]; rewrite ?H2, ?H3; reflexivity.
Qed.

(** X20. On ASCII text, stripping whitespace removes exactly the
    characters TAB, LF, VT, FF, CR and SPACE and keeps the others in order;
    stripping twice is stripping once; and stripping a text that starts with
    an ASCII text strips the two parts separately, so that spaces put
    anywhere among the digits of a card number do not change what the
    number is compared with. *)
Theorem strip_whitespace_ascii (s : string) :
  ascii_text s = true ->
  strip_whitespace s = drop_ws1 s
  /\ strip_whitespace (strip_whitespace s) = strip_whitespace s
  /\ forall rest, strip_whitespace (s ++ rest)
                  = strip_whitespace s ++ strip_whitespace rest.
Proof.
  induction s as [|a s IH]; intros Hs.
  - repeat split.
  - cbn [ascii_text] in Hs. apply andb_true_iff in Hs as [Ha Hs].
    destruct (IH Hs) as (IH1 & IH2 & IH3).
    rewrite (strip_whitespace_ascii_head a s Ha). cbn [drop_ws1].
    repeat split.
    + destruct (ws1 a); congruence.
    + destruct (ws1 a) eqn:W; [exact IH2|].
      rewrite (strip_whitespace_ascii_head a _ Ha), W. congruence.
    + intros rest. change (String a s ++ rest) with (String a (s ++ rest)).
      rewrite (strip_whitespace_ascii_head a _ Ha), IH3.
      destruct (ws1 a); reflexivity.
Qed.

Lemma strip_whitespace_ascii_witness :
  strip_whitespace "4000 0000 0000 0002" = drop_ws1 "4000 0000 0000 0002"
  /\ strip_whitespace (strip_whitespace "4000 0000 0000 0002")
     = strip_whitespace "4000 0000 0000 0002"
  /\ forall rest, strip_whitespace ("4000 0000 0000 0002" ++ rest)
                  = strip_whitespace "4000 0000 0000 0002" ++ strip_whitespace rest.
Proof.
  apply (strip_whitespace_ascii "4000 0000 0000 0002"). reflexivity.
Defined.

(** ** The listed payment methods *)

(** X21. Every non-empty method that [GET /api/payment-methods] lists is
    one process payment accepts: with a truthy amount and currency, a payment
    by it is answered neither [invalid_request] nor
    [invalid_payment_method]. *)
Theorem listed_method_accepted (cfg : config) (e : env) (body : jsval)
    (method : string) (s : gmap string transaction) :
  In method (paymentMethods (getPaymentMethods cfg)) ->
  method <> "" ->
  prop "paymentMethod" body = JStr method ->
  truthy (prop "amount" body) = true ->
  truthy (prop "currency" body) = true ->
  error_code (processPayment cfg e body s).1 <> Some "invalid_request"
  /\ error_code (processPayment cfg e body s).1 <> Some "invalid_payment_method".
Proof.
  cbn [paymentMethods getPaymentMethods]. intros Hin Hne Hm Ha Hc.
  assert (required_fields body = true) as Hr.
  { unfold required_fields. rewrite Hm, Ha, Hc.
    destruct method; [contradiction|reflexivity]. }
  assert (includes (availablePaymentMethods cfg) (prop "paymentMethod" body)
          = true) as Hi by (rewrite Hm; now apply includes_In).
  destruct (processPayment_cases cfg e body s)
    as [[H0 ->]|[[H1 ->]|[(H1 & H2 & ->)|[(H1 & H2 & H3 & ->)|[(H1 & r & H2 & ->)
       |[(H1 & H2 & H3 & ->)|(H1 & H2 & H3 & ->)]]]]]];
    unfold created; answer; try congruence; try (split; discriminate).
  apply card_block_codes in H2 as [_ H2].
  apply test_card_outcome_codes in H2; split_answers H2; split; congruence.
Qed.

Lemma listed_method_accepted_witness :
  let body := JObj [("paymentMethod", JStr "google_pay"); ("amount", JNum 100);
                    ("currency", JStr "USD")] in
  error_code (processPayment DEFAULT_CONFIG sample_env body ∅).1
  <> Some "invalid_request"
  /\ error_code (processPayment DEFAULT_CONFIG sample_env body ∅).1
     <> Some "invalid_payment_method".
Proof.
  apply (listed_method_accepted DEFAULT_CONFIG sample_env
           (JObj [("paymentMethod", JStr "google_pay"); ("amount", JNum 100);
                  ("currency", JStr "USD")]) "google_pay" ∅);
    try reflexivity; try discriminate.
  cbn [In paymentMethods getPaymentMethods availablePaymentMethods DEFAULT_CONFIG].
  auto.
Defined.

(** X22. The default method that [GET /api/payment-methods] announces is
    always [credit_card], whatever the configuration: when the configured
    methods do not include it, a payment by the announced default method,
    with a truthy amount and currency, is answered 400
    [invalid_payment_method]. *)
Theorem default_method_may_be_unsupported (cfg : config) (e : env)
    (body : jsval) (s : gmap string transaction) :
  ~ In "credit_card" (availablePaymentMethods cfg) ->
  prop "paymentMethod" body = JStr (defaultMethod (getPaymentMethods cfg)) ->
  truthy (prop "amount" body) = true ->
  truthy (prop "currency" body) = true ->
  processPayment cfg e body s
  = (fail 400 "invalid_payment_method" (invalid_method_message cfg), s).
Proof.
  cbn [defaultMethod getPaymentMethods]. intros Hn Hm Ha Hc.
  assert (includes (availablePaymentMethods cfg) (prop "paymentMethod" body)
          = false) as Hi.
  { apply not_true_iff_false. intros H. apply includes_true in H.
    destruct H as (m & Hm' & Hin). rewrite Hm in Hm'. now injection Hm' as <-. }
  unfold processPayment.
  rewrite (prop_str_body _ _ _ Hm), Hi, Hm, Ha, Hc. reflexivity.
Qed.

Lemma default_method_may_be_unsupported_witness :
  let cfg := {| port := 3030; delay_min := 0; delay_max := 0;
                errorRate := 0; declineRate := 0;
                availablePaymentMethods := ["paypal"];
                testCards := DEFAULT_TEST_CARDS |} in
  processPayment cfg sample_env
    (card_payment (JNum 100) (JStr "USD") "4111111111111111") ∅
  = (fail 400 "invalid_payment_method" (invalid_method_message cfg), ∅).
Proof.
  apply (default_method_may_be_unsupported
           {| port := 3030; delay_min := 0; delay_max := 0;
              errorRate := 0; declineRate := 0;
              availablePaymentMethods := ["paypal"];
              testCards := DEFAULT_TEST_CARDS |} sample_env
           (card_payment (JNum 100) (JStr "USD") "4111111111111111") ∅);
    try reflexivity.
  cbn [In availablePaymentMethods]. intros [H|[]]. discriminate H.
Defined.
